(** * Invoice extraction and storage tools

    A shallow embedding of the two agent tools of the repository,

    - [extract_invoice_data] (agents_prompting_structured_data.py and
      agents_flexibility_and_reliability.py), and
    - [store_invoice] (agents_prompting_structured_data.py),

    over a small model of the Python object store.  Mutable containers
    (dicts and lists) live in a heap and are reached through references,
    so that two names for one dict see each other's writes; scalars are
    immutable values.

    The [register_tool] decorator registers a function under its tags
    and leaves it as it is; the tools are modelled as the plain
    functions.

    Scope of the value universe: [None], [bool], [int] (unbounded, [Z]),
    [str], and references to dicts and lists.  Floating-point numbers are
    left out: a number is a Python int. *)

From stdpp Require Import gmap strings list fin_maps pretty.

Open Scope string_scope.
Local Set Warnings "-register-all".

(** ** Values, keys and objects *)

Definition loc := positive.

Inductive pyval :=
  | VNone
  | VBool (b : bool)
  | VInt (z : Z)
  | VStr (s : string)
  | VRef (l : loc).

(** A dict key is a hashed value.  Python looks keys up with [==], under
    which [True == 1] and [False == 0]: a bool key and the int it equals
    are one key. *)
Inductive pykey :=
  | KNone
  | KInt (z : Z)
  | KStr (s : string).

Global Instance pyval_eq_dec : EqDecision pyval.
Proof. solve_decision. Defined.

Global Instance pykey_eq_dec : EqDecision pykey.
Proof. solve_decision. Defined.

Definition pykey_enc (k : pykey) : unit + (Z + string) :=
  match k with
  | KNone => inl tt
  | KInt z => inr (inl z)
  | KStr s => inr (inr s)
  end.

Definition pykey_dec (x : unit + (Z + string)) : pykey :=
  match x with
  | inl _ => KNone
  | inr (inl z) => KInt z
  | inr (inr s) => KStr s
  end.

Global Instance pykey_countable : Countable pykey.
Proof. apply (inj_countable' pykey_enc pykey_dec). by intros []. Defined.

Inductive pyobj :=
  | ODict (d : gmap pykey pyval)
  | OList (xs : list pyval).

Abbreviation pydict := (gmap pykey pyval).
Abbreviation heap := (gmap loc pyobj).

(** ** Exceptions and the evaluation monad *)

Inductive exn :=
  | ValueError (msg : string)
  | TypeError (msg : string)
  | AttributeError (msg : string)
  | IndexError (msg : string)
  | OtherError (kind msg : string).

(** [Wrong] is not a Python outcome: it marks a state no Python program
    reaches (a reference to an object that is not in the heap). *)
Inductive outcome (A : Type) :=
  | Ret (a : A)
  | Raise (e : exn)
  | Wrong.
Arguments Ret {A} a.
Arguments Raise {A} e.
Arguments Wrong {A}.

(** A computation reads and writes the heap; the heap survives an
    exception, as the objects of a Python program do. *)
Definition M (A : Type) : Type := heap → outcome A * heap.

Definition ret {A} (a : A) : M A := λ h, (Ret a, h).

Definition bind {A B} (m : M A) (k : A → M B) : M B :=
  λ h, match m h with
       | (Ret a, h') => k a h'
       | (Raise e, h') => (Raise e, h')
       | (Wrong, h') => (Wrong, h')
       end.

Definition raise {A} (e : exn) : M A := λ h, (Raise e, h).
Definition wrong {A} : M A := λ h, (Wrong, h).

Global Instance M_ret : MRet M := @ret.
Global Instance M_bind : MBind M := λ A B k m, bind m k.

(** The object behind a reference. *)
Definition deref (l : loc) : M pyobj :=
  λ h, match h !! l with
       | Some o => (Ret o, h)
       | None => (Wrong, h)
       end.

(** A new object gets a location that is not in use. *)
Definition alloc (o : pyobj) : M pyval :=
  λ h, let l := fresh (dom h) in (Ret (VRef l), <[l := o]> h).

Definition write (l : loc) (o : pyobj) : M unit :=
  λ h, (Ret tt, <[l := o]> h).

(** ** Python primitives used by the tools *)

Definition type_name (o : pyobj) : string :=
  match o with
  | ODict _ => "dict"
  | OList _ => "list"
  end.

Definition scalar_type_name (v : pyval) : string :=
  match v with
  | VNone => "NoneType"
  | VBool _ => "bool"
  | VInt _ => "int"
  | VStr _ => "str"
  | VRef _ => "object"
  end.

(** [type(v).__name__]. *)
Definition type_of (v : pyval) : M string :=
  match v with
  | VRef l => o ← deref l; mret (type_name o)
  | _ => mret (scalar_type_name v)
  end.

(** [bool(v)]: [None], [False], [0], the empty string and the empty
    containers are false, everything else is true. *)
Definition truthy (v : pyval) : M bool :=
  match v with
  | VNone => mret false
  | VBool b => mret b
  | VInt z => mret (negb (Z.eqb z 0))
  | VStr s => mret (negb (String.eqb s EmptyString))
  | VRef l =>
      o ← deref l;
      match o with
      | ODict d => mret (negb (bool_decide (d = ∅)))
      | OList xs => mret (negb (bool_decide (xs = [])))
      end
  end.

(** [hash(v)] as a dict key; the scalars are hashable. *)
Definition key_of (v : pyval) : option pykey :=
  match v with
  | VNone => Some KNone
  | VBool b => Some (KInt (if b then 1 else 0))
  | VInt z => Some (KInt z)
  | VStr s => Some (KStr s)
  | VRef _ => None
  end.

(** Hashing a value: dicts and lists are unhashable.  The kind of the
    error is what matters; the wording of the message is CPython's up to
    version 3.13. *)
Definition hash_key (v : pyval) : M pykey :=
  match v with
  | VRef l =>
      o ← deref l;
      raise (TypeError ("unhashable type: '" +:+ type_name o +:+ "'"))
  | _ => match key_of v with
         | Some k => mret k
         | None => wrong
         end
  end.

(** [obj.get(key)] with the default [None]: only a dict has the method. *)
Definition dict_get (obj key : pyval) : M pyval :=
  match obj with
  | VRef l =>
      o ← deref l;
      match o with
      | ODict d =>
          k ← hash_key key;
          mret (default VNone (d !! k))
      | OList _ =>
          raise (AttributeError "'list' object has no attribute 'get'")
      end
  | _ =>
      raise (AttributeError
               ("'" +:+ scalar_type_name obj +:+ "' object has no attribute 'get'"))
  end.

(** A list index: an int (a bool is an int), negative ones count from
    the end. *)
Definition list_index (key : pyval) : option Z :=
  match key with
  | VInt z => Some z
  | VBool b => Some (if b then 1 else 0)%Z
  | _ => None
  end.

(** [target[key] = value]. *)
Definition setitem (target key value : pyval) : M unit :=
  match target with
  | VRef l =>
      o ← deref l;
      match o with
      | ODict d =>
          k ← hash_key key;
          write l (ODict (<[k := value]> d))
      | OList xs =>
          match list_index key with
          | Some i =>
              let n := Z.of_nat (length xs) in
              let j := (if Z.ltb i 0 then i + n else i)%Z in
              if (Z.leb 0 j && Z.ltb j n)%bool
              then write l (OList (<[Z.to_nat j := value]> xs))
              else raise (IndexError "list assignment index out of range")
          | None =>
              t ← type_of key;
              raise (TypeError
                       ("list indices must be integers or slices, not " +:+ t))
          end
      end
  | _ =>
      raise (TypeError
               ("'" +:+ scalar_type_name target
                    +:+ "' object does not support item assignment"))
  end.

(** [str(v)] as an f-string field renders it, for the scalars. *)
Definition format_value (v : pyval) : option string :=
  match v with
  | VNone => Some "None"
  | VBool b => Some (if b then "True" else "False")
  | VInt z => Some (pretty z)
  | VStr s => Some s
  | VRef _ => None
  end.

(** ** The execution context *)

(** Modelled from the spec: the class ActionContext is not defined in the
    repository.  The spec describes a caller-supplied execution context
    that holds shared, externally injected state; the tools use one
    method of it, [get(key, default)], which follows Python's mapping
    protocol: the value bound to [key] when there is one, [default]
    otherwise, and no effect on the context. *)
Record ActionContext := { properties : gmap string pyval }.

Definition ctx_get (c : ActionContext) (key : string) (dflt : pyval) : pyval :=
  default dflt (properties c !! key).

(** ** Display literals *)

(** The dict and list displays the tools write out ([{...}], [[...]]).
    Evaluating one builds its parts first, left to right, and then the
    container, each container a new object. *)
Inductive lit :=
  | LStr (s : string)
  | LInt (z : Z)
  | LList (items : list lit)
  | LDict (entries : list (string * lit)).

Fixpoint build (e : lit) : M pyval :=
  match e with
  | LStr s => ret (VStr s)
  | LInt z => ret (VInt z)
  | LList items =>
      bind ((fix items_of (es : list lit) : M (list pyval) :=
               match es with
               | [] => ret []
               | e' :: es' =>
                   bind (build e') (λ v,
                   bind (items_of es') (λ vs, ret (v :: vs)))
               end) items)
           (λ vs, alloc (OList vs))
  | LDict entries =>
      bind ((fix entries_of (es : list (string * lit)) (acc : pydict)
               : M pydict :=
               match es with
               | [] => ret acc
               | (k, e') :: es' =>
                   bind (build e') (λ v,
                   entries_of es' (<[KStr k := v]> acc))
               end) entries ∅)
           (λ d, alloc (ODict d))
  end.

(** ** The external capability *)

(** [prompt_llm_for_json(action_context, schema, prompt)] is not part of
    the repository: a black box that returns a value or raises, and that
    may do to the heap whatever it likes.  The tools take it as a
    parameter. *)
Definition capability : Type := ActionContext → pyval → string → M pyval.

Definition NL : string := String (Ascii.ascii_of_nat 10) EmptyString.

(** The text of a triple-quoted string, given line by line. *)
Definition text (ls : list string) : string := String.concat NL ls.

(** ** agents_prompting_structured_data.py *)

Module StructuredData.

Definition invoice_schema : lit :=
  LDict
    [("type", LStr "object");
     ("required", LList [LStr "invoice_number"; LStr "date"; LStr "total_amount"]);
     ("properties",
      LDict
        [("invoice_number", LDict [("type", LStr "string")]);
         ("date", LDict [("type", LStr "string")]);
         ("total_amount", LDict [("type", LStr "number")]);
         ("vendor",
          LDict
            [("type", LStr "object");
             ("properties",
              LDict
                [("name", LDict [("type", LStr "string")]);
                 ("address", LDict [("type", LStr "string")])])]);
         ("line_items",
          LDict
            [("type", LStr "array");
             ("items",
              LDict
                [("type", LStr "object");
                 ("properties",
                  LDict
                    [("description", LDict [("type", LStr "string")]);
                     ("quantity", LDict [("type", LStr "number")]);
                     ("unit_price", LDict [("type", LStr "number")]);
                     ("total", LDict [("type", LStr "number")])])])])])].

Definition extraction_prompt (document_text : string) : string :=
  text
  [EmptyString;
   "            You are an expert invoice analyzer. Extract invoice information accurately and ";
   "            thoroughly. Pay special attention to:";
   "            - Invoice numbers (look for 'Invoice #', 'No.', 'Reference', etc.)";
   "            - Dates (focus on invoice date or issue date)";
   "            - Amounts (ensure you capture the total amount correctly)";
   "            - Line items (capture all individual charges)";
   "            ";
   "            Stop and think step by step. Then, extract the invoice data from:";
   "            ";
   "            <invoice>";
   "            "]
  +:+ document_text +:+
  text
  [EmptyString;
   "            </invoice>";
   "    "].

Definition extract_invoice_data (prompt_llm_for_json : capability)
    (action_context : ActionContext) (document_text : string) : M pyval :=
  schema ← build invoice_schema;
  prompt_llm_for_json action_context schema (extraction_prompt document_text).

Definition store_invoice (action_context : ActionContext)
    (invoice_data : pyval) : M pyval :=
  dflt ← alloc (ODict ∅);
  let storage := ctx_get action_context "invoice_storage" dflt in
  invoice_number ← dict_get invoice_data (VStr "invoice_number");
  t ← truthy invoice_number;
  if negb t
  then raise (ValueError "Invoice data must contain an invoice number")
  else
    _ ← setitem storage invoice_number invoice_data;
    match format_value invoice_number with
    | None => wrong
    | Some shown =>
        alloc (ODict (<[KStr "status" := VStr "success"]>
                     (<[KStr "message" := VStr ("Stored invoice " +:+ shown)]>
                     (<[KStr "invoice_number" := invoice_number]> ∅))))
    end.

End StructuredData.

(** ** agents_flexibility_and_reliability.py *)

Module Reliability.

Definition invoice_schema : lit :=
  LDict
    [("type", LStr "object");
     ("required", LList [LStr "invoice_number"; LStr "date"; LStr "amount"]);
     ("properties",
      LDict
        [("invoice_number", LDict [("type", LStr "string")]);
         ("date", LDict [("type", LStr "string"); ("format", LStr "date")]);
         ("amount",
          LDict
            [("type", LStr "object");
             ("properties",
              LDict
                [("value", LDict [("type", LStr "number")]);
                 ("currency", LDict [("type", LStr "string")])]);
             ("required", LList [LStr "value"; LStr "currency"])]);
         ("vendor",
          LDict
            [("type", LStr "object");
             ("properties",
              LDict
                [("name", LDict [("type", LStr "string")]);
                 ("tax_id", LDict [("type", LStr "string")]);
                 ("address", LDict [("type", LStr "string")])]);
             ("required", LList [LStr "name"])]);
         ("line_items",
          LDict
            [("type", LStr "array");
             ("items",
              LDict
                [("type", LStr "object");
                 ("properties",
                  LDict
                    [("description", LDict [("type", LStr "string")]);
                     ("quantity", LDict [("type", LStr "number")]);
                     ("unit_price", LDict [("type", LStr "number")]);
                     ("total", LDict [("type", LStr "number")])]);
                 ("required", LList [LStr "description"; LStr "total"])])])])].

Definition extraction_prompt (document_text : string) : string :=
  text
  [EmptyString;
   "    Extract invoice information from the following document text. ";
   "    Focus on identifying:";
   "    - Invoice number (usually labeled as 'Invoice #', 'Reference', etc.)";
   "    - Date (any dates labeled as 'Invoice Date', 'Issue Date', etc.)";
   "    - Amount (total amount due, including currency)";
   "    - Vendor information (company name, tax ID if present, address)";
   "    - Line items (individual charges and their details)";
   EmptyString;
   "    Document text:";
   "    "]
  +:+ document_text +:+
  text
  [EmptyString;
   "    "].

Definition extract_invoice_data (prompt_llm_for_json : capability)
    (action_context : ActionContext) (document_text : string) : M pyval :=
  schema ← build invoice_schema;
  prompt_llm_for_json action_context schema (extraction_prompt document_text).

End Reliability.

Import StructuredData.

(** ** Observing the store *)

(** The invoice mapping as the context shows it. *)
Definition invoice_mapping (c : ActionContext) (h : heap) : option pydict :=
  match properties c !! "invoice_storage" with
  | Some (VRef l) =>
      match h !! l with
      | Some (ODict d) => Some d
      | _ => None
      end
  | _ => None
  end.

(** Reading a field of a dict object, for stating what a caller sees. *)
Definition field (h : heap) (obj : pyval) (name : string) : option pyval :=
  match obj with
  | VRef l =>
      match h !! l with
      | Some (ODict d) => d !! KStr name
      | _ => None
      end
  | _ => None
  end.

(** The values [if not v] rejects. *)
Inductive falsy (h : heap) : pyval → Prop :=
  | falsy_none : falsy h VNone
  | falsy_false : falsy h (VBool false)
  | falsy_zero : falsy h (VInt 0)
  | falsy_empty_str : falsy h (VStr EmptyString)
  | falsy_empty_dict l : h !! l = Some (ODict ∅) → falsy h (VRef l)
  | falsy_empty_list l : h !! l = Some (OList []) → falsy h (VRef l).

(** The hashable values [if not v] lets through. *)
Inductive truthy_scalar : pyval → Prop :=
  | truthy_true : truthy_scalar (VBool true)
  | truthy_int z : z ≠ 0%Z → truthy_scalar (VInt z)
  | truthy_str s : s ≠ EmptyString → truthy_scalar (VStr s).

(** The containers [if not v] lets through. *)
Inductive truthy_container (h : heap) : pyval → Prop :=
  | truthy_dict l d : h !! l = Some (ODict d) → d ≠ ∅ → truthy_container h (VRef l)
  | truthy_list l xs : h !! l = Some (OList xs) → xs ≠ [] → truthy_container h (VRef l).

(** What a successful call returns. *)
Definition success_descriptor (invoice_number : pyval) (shown : string) : pydict :=
  <[KStr "status" := VStr "success"]>
  (<[KStr "message" := VStr ("Stored invoice " +:+ shown)]>
  (<[KStr "invoice_number" := invoice_number]> ∅)).

Definition missing_number : exn :=
  ValueError "Invoice data must contain an invoice number".

(** A caller that goes on after a failed call: the heap a run of calls
    leaves behind. *)
Fixpoint store_all (c : ActionContext) (inputs : list pyval) (h : heap) : heap :=
  match inputs with
  | [] => h
  | x :: rest => store_all c rest (store_invoice c x h).2
  end.

(** Every record of the mapping carries a non-empty invoice number and
    sits under the key that number hashes to. *)
Definition keyed_by_number (h : heap) (k : pykey) (v : pyval) : Prop :=
  ∃ r d n, v = VRef r ∧ h !! r = Some (ODict d)
           ∧ d !! KStr "invoice_number" = Some n
           ∧ truthy_scalar n ∧ key_of n = Some k.

Definition store_invariant (c : ActionContext) (h : heap) : Prop :=
  ∃ ls m, properties c !! "invoice_storage" = Some (VRef ls)
          ∧ h !! ls = Some (ODict m)
          ∧ map_Forall (keyed_by_number h) m.

(** ** Sample data *)

(** A context that holds an (empty) invoice mapping, and one that holds
    nothing. *)
Definition store_loc : loc := 1%positive.
Definition stored_ctx : ActionContext :=
  {| properties := {["invoice_storage" := VRef store_loc]} |}.
Definition bare_ctx : ActionContext := {| properties := ∅ |}.
Definition empty_store : heap := {[store_loc := ODict ∅]}.

(** The heap after evaluating a display, and the value it gave. *)
Definition with_display (e : lit) (h : heap) : pyval * heap :=
  match build e h with
  | (Ret v, h') => (v, h')
  | (_, h') => (VNone, h')
  end.

(** The records of the spec's examples; an amount is a whole number. *)
Definition inv_100 : lit :=
  LDict [("invoice_number", LStr "INV-100");
         ("date", LStr "2024-01-01");
         ("amount", LDict [("value", LInt 250); ("currency", LStr "USD")])].

Definition inv_1_first : lit :=
  LDict [("invoice_number", LStr "INV-1");
         ("amount", LDict [("value", LInt 100); ("currency", LStr "USD")]);
         ("date", LStr "2024-01-01")].

Definition inv_1_second : lit :=
  LDict [("invoice_number", LStr "INV-1");
         ("amount", LDict [("value", LInt 200); ("currency", LStr "USD")]);
         ("date", LStr "2024-01-02")].

Definition inv_a1 : lit :=
  LDict [("invoice_number", LStr "A1");
         ("date", LStr "2024-02-02");
         ("amount", LDict [("value", LInt 10); ("currency", LStr "EUR")])].

Definition inv_unnumbered : lit :=
  LDict [("date", LStr "2024-01-01")].

Definition inv_list_number : lit :=
  LDict [("invoice_number", LList [LStr "INV-7"])].

Definition inv_int_number : lit :=
  LDict [("invoice_number", LInt 7)].

Definition inv_empty_number : lit :=
  LDict [("invoice_number", LStr EmptyString); ("date", LStr "2024-01-01")].

(** Heaps that hold the empty mapping and the records of a few
    displays; the comment gives where each record lands. *)
Definition h_inv_100 : heap := (with_display inv_100 empty_store).2.
  (* record at 3, its amount at 2 *)
Definition h_inv_1 : heap :=
  (with_display inv_1_second (with_display inv_1_first empty_store).2).2.
  (* records at 3 and 5 *)
Definition h_unnumbered : heap := (with_display inv_unnumbered empty_store).2.
  (* record at 2 *)
Definition h_list_number : heap := (with_display inv_list_number empty_store).2.
  (* record at 3, its number, a list, at 2 *)
Definition h_int_number : heap := (with_display inv_int_number empty_store).2.
  (* record at 2 *)

(** The fields of the dict at a location. *)
Definition record_at (h : heap) (l : loc) : pydict :=
  match h !! l with
  | Some (ODict d) => d
  | _ => ∅
  end.

(** Stub capabilities: one answers with a given dict, one fails. *)
Definition stub_returning (e : lit) : capability := λ _ _ _, build e.
Definition stub_failing (e : exn) : capability := λ _ _ _, raise e.

Definition extraction_failure : exn :=
  OtherError "ExtractionFailure" "no conforming object".


(** The map writes a run of stores amounts to: each record, in turn,
    under its number. *)
Definition upsert_all (m : pydict) (entries : list (loc * string)) : pydict :=
  foldl (λ acc e, <[KStr e.2 := VRef e.1]> acc) m entries.

(** A record, apart from the mapping at [ls], with the non-empty string
    [e.2] as its number. *)
Definition numbered_record (h : heap) (ls : loc) (e : loc * string) : Prop :=
  e.1 ≠ ls
  ∧ e.2 ≠ EmptyString
  ∧ ∃ d, h !! e.1 = Some (ODict d)
         ∧ d !! KStr "invoice_number" = Some (VStr e.2).

(** ** Reading a display back *)

(** The two loops of [build], by name. *)
Definition build_items : list lit → M (list pyval) :=
  fix items_of (es : list lit) : M (list pyval) :=
    match es with
    | [] => ret []
    | e' :: es' =>
        bind (build e') (λ v, bind (items_of es') (λ vs, ret (v :: vs)))
    end.

Definition build_entries : list (string * lit) → pydict → M pydict :=
  fix entries_of (es : list (string * lit)) (acc : pydict) : M pydict :=
    match es with
    | [] => ret acc
    | (k, e') :: es' =>
        bind (build e') (λ v, entries_of es' (<[KStr k := v]> acc))
    end.

(** No dict of the display names a key twice. *)
Fixpoint distinct_keys (e : lit) : bool :=
  match e with
  | LStr _ | LInt _ => true
  | LList items =>
      (fix all (es : list lit) : bool :=
         match es with
         | [] => true
         | e' :: es' => distinct_keys e' && all es'
         end) items
  | LDict entries =>
      bool_decide (NoDup entries.*1)
      && (fix all (es : list (string * lit)) : bool :=
            match es with
            | [] => true
            | (_, e') :: es' => distinct_keys e' && all es'
            end) entries
  end.

(** The value [v] reads, in the heap [h], as the display [e]: the same
    scalars, lists of the same items in the same order, dicts with the
    same keys and nothing else. *)
Fixpoint reads_as (h : heap) (e : lit) (v : pyval) {struct e} : Prop :=
  match e with
  | LStr s => v = VStr s
  | LInt z => v = VInt z
  | LList items =>
      ∃ l vs, v = VRef l ∧ h !! l = Some (OList vs)
        ∧ (fix all (es : list lit) (ws : list pyval) : Prop :=
             match es, ws with
             | [], [] => True
             | e' :: es', w :: ws' => reads_as h e' w ∧ all es' ws'
             | _, _ => False
             end) items vs
  | LDict entries =>
      ∃ l d, v = VRef l ∧ h !! l = Some (ODict d)
        ∧ dom d = list_to_set ((λ kv, KStr kv.1) <$> entries)
        ∧ (fix each (es : list (string * lit)) : Prop :=
             match es with
             | [] => True
             | (k, e') :: es' =>
                 (∃ w, d !! KStr k = Some w ∧ reads_as h e' w) ∧ each es'
             end) entries
  end.

(** A value that is a reference refers to an object that was not there
    in [h]. *)
Definition new_in (h : heap) (v : pyval) : Prop :=
  ∀ l, v = VRef l → h !! l = None.

(** More sample data: two records with different numbers (at 3 and 5),
    a record numbered [True] (at 2) beside one numbered [1] (at 3), and
    a context whose storage is [None]. *)
Definition h_two_numbers : heap :=
  (with_display inv_1_first (with_display inv_100 empty_store).2).2.

Definition h_true_one : heap :=
  <[3%positive := ODict {[KStr "invoice_number" := VInt 1]}]>
    (<[2%positive := ODict {[KStr "invoice_number" := VBool true]}]> empty_store).

Definition none_ctx : ActionContext :=
  {| properties := {["invoice_storage" := VNone]} |}.

Definition loc_of (v : pyval) : loc :=
  match v with
  | VRef l => l
  | _ => 1%positive
  end.

(** What the stub that answers with A1 leaves, called by the first
    extractor from the empty store, and the same for the second extractor
    and an answer without a number. *)
Definition a1_answer : pyval * heap :=
  with_display inv_a1 (with_display StructuredData.invoice_schema empty_store).2.

Definition unnumbered_answer : pyval * heap :=
  with_display inv_unnumbered (with_display Reliability.invoice_schema empty_store).2.

(** * Properties *)

(** ** The heap and the primitives *)

Lemma fresh_unused (h : heap) : h !! fresh (dom h) = None.
Proof. apply not_elem_of_dom, is_fresh. Qed.

Lemma alloc_extends (h : heap) (o : pyobj) : h ⊆ <[fresh (dom h) := o]> h.
Proof. apply insert_subseteq, fresh_unused. Qed.

Lemma used_not_fresh (h : heap) (l : loc) (o : pyobj) :
  h !! l = Some o → l ≠ fresh (dom h).
Proof. intros Hl ->. rewrite fresh_unused in Hl. discriminate. Qed.

Lemma deref_used (h : heap) (l : loc) (o : pyobj) :
  h !! l = Some o → deref l h = (Ret o, h).
Proof. intros Hl. unfold deref. by rewrite Hl. Qed.

Lemma dict_get_record (h : heap) (r : loc) (d : pydict) (name : string) :
  h !! r = Some (ODict d) →
  dict_get (VRef r) (VStr name) h = (Ret (default VNone (d !! KStr name)), h).
Proof.
  intros Hr. unfold dict_get, mbind, M_bind, bind.
  by rewrite (deref_used _ _ _ Hr).
Qed.

Lemma truthy_of_scalar (h : heap) (n : pyval) :
  truthy_scalar n → truthy n h = (Ret true, h).
Proof.
  destruct 1 as [ | z Hz | s Hs ]; cbn; unfold mret, M_ret, ret; f_equal; f_equal.
  - apply negb_true_iff, Z.eqb_neq, Hz.
  - apply negb_true_iff, String.eqb_neq, Hs.
Qed.

Lemma truthy_of_falsy (h : heap) (n : pyval) :
  falsy h n → truthy n h = (Ret false, h).
Proof.
  destruct 1 as [ | | | | l Hl | l Hl ]; try reflexivity;
    unfold truthy, mbind, M_bind, bind; by rewrite (deref_used _ _ _ Hl).
Qed.


Lemma hash_key_scalar (h : heap) (n : pyval) (k : pykey) :
  key_of n = Some k → hash_key n h = (Ret k, h).
Proof. destruct n; cbn; intros [= <-]; reflexivity. Qed.

Lemma setitem_dict (h : heap) (ls : loc) (m : pydict) (n x : pyval) (k : pykey) :
  h !! ls = Some (ODict m) → key_of n = Some k →
  setitem (VRef ls) n x h = (Ret tt, <[ls := ODict (<[k := x]> m)]> h).
Proof.
  intros Hls Hk. unfold setitem, mbind, M_bind, bind.
  by rewrite (deref_used _ _ _ Hls), (hash_key_scalar _ _ _ Hk).
Qed.

Lemma format_scalar (n : pyval) (k : pykey) :
  key_of n = Some k → ∃ shown, format_value n = Some shown.
Proof. destruct n; cbn; intros [= <-]; eauto. Qed.

Lemma truthy_scalar_hashable (n : pyval) :
  truthy_scalar n → ∃ k, key_of n = Some k.
Proof. destruct 1; cbn; eauto. Qed.

Lemma falsy_weaken (h h' : heap) (n : pyval) :
  h ⊆ h' → falsy h n → falsy h' n.
Proof.
  intros Hsub [ | | | | l Hl | l Hl ].
  1-4: constructor.
  - apply falsy_empty_dict. by eapply lookup_weaken.
  - apply falsy_empty_list. by eapply lookup_weaken.
Qed.


(** ** store_invoice, step by step *)

(** A record with a falsy invoice number is refused before the storage
    is touched: the only trace is the unused default dict. *)
Lemma store_invoice_refuses (c : ActionContext) (h : heap) (r : loc) (d : pydict) :
  h !! r = Some (ODict d) →
  falsy h (default VNone (d !! KStr "invoice_number")) →
  store_invoice c (VRef r) h
  = (Raise missing_number, <[fresh (dom h) := ODict ∅]> h).
Proof.
  intros Hr Hn.
  set (h0 := <[fresh (dom h) := ODict ∅]> h).
  assert (Hsub : h ⊆ h0) by apply alloc_extends.
  assert (Hn0 : falsy h0 (default VNone (d !! KStr "invoice_number")))
    by (by eapply falsy_weaken).
  unfold store_invoice, mbind, M_bind, bind. cbn [alloc]. fold h0.
  rewrite (dict_get_record h0 r d) by (by eapply lookup_weaken).
  by rewrite (truthy_of_falsy _ _ Hn0).
Qed.

(** A record with a truthy hashable invoice number, stored into the
    mapping the context holds: the mapping object gets the record under
    that key, a descriptor is returned in a new object, and every other
    object is as it was. *)
Lemma store_invoice_stored (c : ActionContext) (h : heap) (r ls : loc)
    (d m : pydict) (n : pyval) (k : pykey) :
  properties c !! "invoice_storage" = Some (VRef ls) →
  h !! ls = Some (ODict m) →
  h !! r = Some (ODict d) →
  d !! KStr "invoice_number" = Some n →
  truthy_scalar n →
  key_of n = Some k →
  ∃ lr shown h',
    store_invoice c (VRef r) h = (Ret (VRef lr), h')
    ∧ format_value n = Some shown
    ∧ h !! lr = None
    ∧ h' !! lr = Some (ODict (success_descriptor n shown))
    ∧ h' !! ls = Some (ODict (<[k := VRef r]> m))
    ∧ (∀ l o, l ≠ ls → h !! l = Some o → h' !! l = Some o).
Proof.
  intros Hc Hls Hr Hd Hn Hk.
  destruct (format_scalar _ _ Hk) as [shown Hshown].
  set (l0 := fresh (dom h)). set (h0 := <[l0 := ODict ∅]> h).
  set (h1 := <[ls := ODict (<[k := VRef r]> m)]> h0).
  set (lr := fresh (dom h1)).
  assert (Hsub : h ⊆ h0) by apply alloc_extends.
  assert (Hls0 : h0 !! ls = Some (ODict m)) by (by eapply lookup_weaken).
  assert (Hr0 : h0 !! r = Some (ODict d)) by (by eapply lookup_weaken).
  assert (Hlr1 : h1 !! lr = None) by apply fresh_unused.
  assert (Hlr : h !! lr = None).
  { destruct (h !! lr) as [o|] eqn:E; [|done].
    assert (lr ≠ ls) as Hne by (intros Heq; rewrite Heq in Hlr1;
      unfold h1 in Hlr1; by rewrite lookup_insert_eq in Hlr1).
    unfold h1 in Hlr1. rewrite lookup_insert_ne in Hlr1 by done.
    apply (lookup_weaken _ _ _ _ E) in Hsub. congruence. }
  exists lr, shown, (<[lr := ODict (success_descriptor n shown)]> h1).
  split; [|split; [done|split; [done|split; [|split]]]].
  - unfold store_invoice, mbind, M_bind, bind. cbn [alloc]. fold l0 h0.
    rewrite (dict_get_record h0 r d _ Hr0), Hd. cbn [default from_option]; unfold id.
    rewrite (truthy_of_scalar _ _ Hn). cbn [negb].
    unfold ctx_get. rewrite Hc. cbn [default from_option]; unfold id.
    rewrite (setitem_dict h0 ls m n (VRef r) k Hls0 Hk). fold h1.
    rewrite Hshown. reflexivity.
  - apply lookup_insert_eq.
  - rewrite lookup_insert_ne.
    + apply lookup_insert_eq.
    + intros ->. unfold h1 in Hlr1. by rewrite lookup_insert_eq in Hlr1.
  - intros l o Hne Hl.
    rewrite lookup_insert_ne by (intros ->; congruence).
    unfold h1. rewrite lookup_insert_ne by done.
    by eapply lookup_weaken.
Qed.

(** The same record when the context holds no mapping: the write goes to
    the default dict, which nothing refers to. *)
Lemma store_invoice_detached (c : ActionContext) (h : heap) (r : loc)
    (d : pydict) (n : pyval) (k : pykey) :
  properties c !! "invoice_storage" = None →
  h !! r = Some (ODict d) →
  d !! KStr "invoice_number" = Some n →
  truthy_scalar n →
  key_of n = Some k →
  ∃ lr shown h',
    store_invoice c (VRef r) h = (Ret (VRef lr), h')
    ∧ format_value n = Some shown
    ∧ h !! lr = None
    ∧ h' !! lr = Some (ODict (success_descriptor n shown))
    ∧ h' !! fresh (dom h) = Some (ODict (<[k := VRef r]> ∅))
    ∧ h ⊆ h'.
Proof.
  intros Hc Hr Hd Hn Hk.
  destruct (format_scalar _ _ Hk) as [shown Hshown].
  set (l0 := fresh (dom h)). set (h0 := <[l0 := ODict ∅]> h).
  set (h1 := <[l0 := ODict (<[k := VRef r]> ∅)]> h0).
  set (lr := fresh (dom h1)).
  assert (Hl0 : h !! l0 = None) by apply fresh_unused.
  assert (Hr0 : h0 !! r = Some (ODict d)).
  { eapply lookup_weaken; [exact Hr | apply alloc_extends]. }
  assert (Hh1 : h1 = <[l0 := ODict (<[k := VRef r]> ∅)]> h).
  { unfold h1, h0. apply insert_insert_eq. }
  assert (Hsub1 : h ⊆ h1) by (rewrite Hh1; by apply insert_subseteq).
  assert (Hlr1 : h1 !! lr = None) by apply fresh_unused.
  exists lr, shown, (<[lr := ODict (success_descriptor n shown)]> h1).
  split; [|split; [done|split; [|split; [|split]]]].
  - unfold store_invoice, mbind, M_bind, bind. cbn [alloc]. fold l0 h0.
    rewrite (dict_get_record h0 r d _ Hr0), Hd. cbn [default from_option]; unfold id.
    rewrite (truthy_of_scalar _ _ Hn). cbn [negb].
    unfold ctx_get. rewrite Hc. cbn [default from_option]; unfold id.
    rewrite (setitem_dict h0 l0 ∅ n (VRef r) k) by (done || apply lookup_insert_eq).
    fold h1. rewrite Hshown. reflexivity.
  - destruct (h !! lr) as [o|] eqn:E; [|done].
    apply (lookup_weaken _ _ _ _ E) in Hsub1. congruence.
  - apply lookup_insert_eq.
  - rewrite lookup_insert_ne.
    + rewrite Hh1. apply lookup_insert_eq.
    + intros Heq. rewrite Hh1 in Hlr1. rewrite <- Heq in Hlr1.
      by rewrite lookup_insert_eq in Hlr1.
  - etrans; [exact Hsub1|]. by apply insert_subseteq.
Qed.

(** ** What the context shows *)

Lemma invoice_mapping_weaken (c : ActionContext) (h h' : heap) (m : pydict) :
  h ⊆ h' → invoice_mapping c h = Some m → invoice_mapping c h' = Some m.
Proof.
  intros Hsub. unfold invoice_mapping.
  destruct (properties c !! "invoice_storage") as [[ | | | |l]|]; try done.
  destruct (h !! l) as [[d|xs]|] eqn:Hl; try done.
  intros [= ->]. by rewrite (lookup_weaken _ _ _ _ Hl Hsub).
Qed.

Lemma invoice_mapping_held (c : ActionContext) (h : heap) (ls : loc) (m : pydict) :
  properties c !! "invoice_storage" = Some (VRef ls) →
  h !! ls = Some (ODict m) →
  invoice_mapping c h = Some m.
Proof. intros Hc Hls. unfold invoice_mapping. by rewrite Hc, Hls. Qed.

Lemma one_entry_at_key (m : pydict) (k : pykey) (v : pyval) :
  m !! k = Some v → size (filter (λ kv, kv.1 = k) m) = 1.
Proof.
  intros Hk.
  assert (filter (λ kv : pykey * pyval, kv.1 = k) m = {[k := v]}) as ->.
  { apply map_eq. intros i. apply option_eq. intros x.
    rewrite map_lookup_filter_Some, lookup_singleton_Some. cbn.
    split.
    - intros [Hi ->]. split; [done | congruence].
    - intros [<- <-]. done. }
  apply map_size_singleton.
Qed.

Lemma nonempty_string_truthy (s : string) :
  s ≠ EmptyString → truthy_scalar (VStr s).
Proof. apply truthy_str. Qed.

(** ** The storage contract *)

(** C1.  A record without an invoice number, or with the empty string as
    its number, is refused with the ValueError whatever the context is;
    every object of the heap is as before, and so is the invoice mapping
    the context holds. *)
Theorem store_invoice_requires_number (c : ActionContext) (h : heap)
    (r : loc) (d : pydict) :
  h !! r = Some (ODict d) →
  d !! KStr "invoice_number" = None
    ∨ d !! KStr "invoice_number" = Some (VStr EmptyString) →
  ∃ h', store_invoice c (VRef r) h = (Raise missing_number, h')
        ∧ h ⊆ h'
        ∧ ∀ m, invoice_mapping c h = Some m → invoice_mapping c h' = Some m.
Proof.
  intros Hr Hd. eexists. split; [|split].
  - apply (store_invoice_refuses c h r d Hr).
    destruct Hd as [-> | ->]; constructor.
  - apply alloc_extends.
  - intros m. apply invoice_mapping_weaken, alloc_extends.
Qed.

(** C4.  After a successful store the mapping of the context, read at
    the record's invoice number, gives the very object that was passed
    in, and (the record not being the mapping itself) its contents are
    what they were. *)
Theorem store_invoice_round_trip (c : ActionContext) (h : heap) (r ls : loc)
    (d m : pydict) (s : string) :
  properties c !! "invoice_storage" = Some (VRef ls) →
  h !! ls = Some (ODict m) →
  h !! r = Some (ODict d) →
  d !! KStr "invoice_number" = Some (VStr s) →
  s ≠ EmptyString →
  ∃ v h' m',
    store_invoice c (VRef r) h = (Ret v, h')
    ∧ invoice_mapping c h' = Some m'
    ∧ m' !! KStr s = Some (VRef r)
    ∧ (r ≠ ls → h' !! r = Some (ODict d)).
Proof.
  intros Hc Hls Hr Hd Hs.
  destruct (store_invoice_stored c h r ls d m (VStr s) (KStr s))
    as (lr & shown & h' & Hrun & _ & _ & _ & Hls' & Hframe);
    [done..|by apply truthy_str|done|].
  exists (VRef lr), h', (<[KStr s := VRef r]> m).
  split; [done|split; [|split]].
  - by apply (invoice_mapping_held c h' ls).
  - apply lookup_insert_eq.
  - intros Hne. by apply Hframe.
Qed.

(** C2.  Storing one record twice in a row leaves the mapping exactly as
    storing it once: the mapping with the record under its number, one
    entry for that number, holding the record as passed in. *)
Theorem store_invoice_idempotent (c : ActionContext) (h : heap) (r ls : loc)
    (d m : pydict) (s : string) :
  properties c !! "invoice_storage" = Some (VRef ls) →
  h !! ls = Some (ODict m) →
  h !! r = Some (ODict d) →
  d !! KStr "invoice_number" = Some (VStr s) →
  s ≠ EmptyString →
  r ≠ ls →
  ∃ v1 h1 v2 h2 m',
    store_invoice c (VRef r) h = (Ret v1, h1)
    ∧ store_invoice c (VRef r) h1 = (Ret v2, h2)
    ∧ m' = <[KStr s := VRef r]> m
    ∧ invoice_mapping c h1 = Some m'
    ∧ invoice_mapping c h2 = Some m'
    ∧ m' !! KStr s = Some (VRef r)
    ∧ size (filter (λ kv, kv.1 = KStr s) m') = 1
    ∧ h2 !! r = Some (ODict d).
Proof.
  intros Hc Hls Hr Hd Hs Hne.
  destruct (store_invoice_stored c h r ls d m (VStr s) (KStr s))
    as (lr1 & shown1 & h1 & Hrun1 & _ & _ & _ & Hls1 & Hframe1);
    [done..|by apply truthy_str|done|].
  assert (Hr1 : h1 !! r = Some (ODict d)) by (by apply Hframe1).
  destruct (store_invoice_stored c h1 r ls d (<[KStr s := VRef r]> m)
              (VStr s) (KStr s))
    as (lr2 & shown2 & h2 & Hrun2 & _ & _ & _ & Hls2 & Hframe2);
    [done..|by apply truthy_str|done|].
  rewrite insert_insert_eq in Hls2.
  exists (VRef lr1), h1, (VRef lr2), h2, (<[KStr s := VRef r]> m).
  repeat split; try done.
  - by apply (invoice_mapping_held c h1 ls).
  - by apply (invoice_mapping_held c h2 ls).
  - apply lookup_insert_eq.
  - apply (one_entry_at_key _ _ (VRef r)), lookup_insert_eq.
  - by apply Hframe2.
Qed.

(** C3.  Two records with one invoice number, stored one after the
    other: the mapping then holds the second under that number, the
    second store has not changed the number of entries nor any other
    entry, and the second record reads as it was passed in. *)
Theorem store_invoice_overwrites (c : ActionContext) (h : heap)
    (r1 r2 ls : loc) (d1 d2 m : pydict) (s : string) :
  properties c !! "invoice_storage" = Some (VRef ls) →
  h !! ls = Some (ODict m) →
  h !! r1 = Some (ODict d1) →
  h !! r2 = Some (ODict d2) →
  d1 !! KStr "invoice_number" = Some (VStr s) →
  d2 !! KStr "invoice_number" = Some (VStr s) →
  s ≠ EmptyString →
  r1 ≠ ls → r2 ≠ ls →
  ∃ v1 h1 v2 h2 m1 m2,
    store_invoice c (VRef r1) h = (Ret v1, h1)
    ∧ store_invoice c (VRef r2) h1 = (Ret v2, h2)
    ∧ invoice_mapping c h1 = Some m1
    ∧ invoice_mapping c h2 = Some m2
    ∧ m2 !! KStr s = Some (VRef r2)
    ∧ size m2 = size m1
    ∧ (∀ k, k ≠ KStr s → m2 !! k = m1 !! k)
    ∧ h2 !! r2 = Some (ODict d2).
Proof.
  intros Hc Hls Hr1 Hr2 Hd1 Hd2 Hs Hne1 Hne2.
  destruct (store_invoice_stored c h r1 ls d1 m (VStr s) (KStr s))
    as (lr1 & shown1 & h1 & Hrun1 & _ & _ & _ & Hls1 & Hframe1);
    [done..|by apply truthy_str|done|].
  assert (Hr2' : h1 !! r2 = Some (ODict d2)) by (by apply Hframe1).
  destruct (store_invoice_stored c h1 r2 ls d2 (<[KStr s := VRef r1]> m)
              (VStr s) (KStr s))
    as (lr2 & shown2 & h2 & Hrun2 & _ & _ & _ & Hls2 & Hframe2);
    [done..|by apply truthy_str|done|].
  exists (VRef lr1), h1, (VRef lr2), h2,
    (<[KStr s := VRef r1]> m), (<[KStr s := VRef r2]> (<[KStr s := VRef r1]> m)).
  repeat split; try done.
  - by apply (invoice_mapping_held c h1 ls).
  - by apply (invoice_mapping_held c h2 ls).
  - apply lookup_insert_eq.
  - apply map_size_insert_Some. rewrite lookup_insert_eq. by eexists.
  - intros k Hk. by rewrite lookup_insert_ne.
  - by apply Hframe2.
Qed.

(** C5.  When the context holds no invoice mapping the call still
    reports success, but the dict it wrote to is the default of the
    lookup, which the context never gets: afterwards the context shows
    no mapping, and no object that existed before has changed. *)
Theorem store_invoice_unattached_default (c : ActionContext) (h : heap)
    (r : loc) (d : pydict) (s : string) :
  properties c !! "invoice_storage" = None →
  h !! r = Some (ODict d) →
  d !! KStr "invoice_number" = Some (VStr s) →
  s ≠ EmptyString →
  ∃ v h',
    store_invoice c (VRef r) h = (Ret v, h')
    ∧ field h' v "status" = Some (VStr "success")
    ∧ h' !! fresh (dom h) = Some (ODict {[KStr s := VRef r]})
    ∧ invoice_mapping c h' = None
    ∧ h ⊆ h'.
Proof.
  intros Hc Hr Hd Hs.
  destruct (store_invoice_detached c h r d (VStr s) (KStr s))
    as (lr & shown & h' & Hrun & _ & _ & Hlr & Hl0 & Hsub);
    [done..|by apply truthy_str|done|].
  exists (VRef lr), h'. repeat split; try done.
  - unfold field. rewrite Hlr. reflexivity.
  - unfold invoice_mapping. by rewrite Hc.
Qed.

(** C6.  A record with a non-empty invoice number gets the success
    descriptor, a new dict with the three fields; its contents depend on
    the number alone, not on what the mapping held before. *)
Theorem store_invoice_success_shape (c : ActionContext) (h : heap)
    (r : loc) (d : pydict) (s : string) :
  h !! r = Some (ODict d) →
  d !! KStr "invoice_number" = Some (VStr s) →
  s ≠ EmptyString →
  properties c !! "invoice_storage" = None
    ∨ (∃ ls m, properties c !! "invoice_storage" = Some (VRef ls)
               ∧ h !! ls = Some (ODict m)) →
  ∃ lr h',
    store_invoice c (VRef r) h = (Ret (VRef lr), h')
    ∧ h !! lr = None
    ∧ h' !! lr = Some (ODict (success_descriptor (VStr s) s))
    ∧ field h' (VRef lr) "status" = Some (VStr "success")
    ∧ field h' (VRef lr) "message" = Some (VStr ("Stored invoice " +:+ s))
    ∧ field h' (VRef lr) "invoice_number" = Some (VStr s).
Proof.
  intros Hr Hd Hs Hc.
  assert (∃ lr h', store_invoice c (VRef r) h = (Ret (VRef lr), h')
                   ∧ h !! lr = None
                   ∧ h' !! lr = Some (ODict (success_descriptor (VStr s) s)))
    as (lr & h' & Hrun & Hnew & Hlr).
  { destruct Hc as [Hc | (ls & m & Hc & Hls)].
    - destruct (store_invoice_detached c h r d (VStr s) (KStr s))
        as (lr & shown & h' & Hrun & [= <-] & Hnew & Hlr & _);
        [done..|by apply truthy_str|done|]. eauto.
    - destruct (store_invoice_stored c h r ls d m (VStr s) (KStr s))
        as (lr & shown & h' & Hrun & [= <-] & Hnew & Hlr & _);
        [done..|by apply truthy_str|done|]. eauto. }
  exists lr, h'. unfold field. rewrite Hlr. repeat split; done.
Qed.

(** ** Every way a call can go *)

Lemma truthy_reads (v : pyval) (h : heap) : ∃ o, truthy v h = (o, h).
Proof.
  destruct v as [ | b | z | s | l]; try (eexists; reflexivity).
  unfold truthy, mbind, M_bind, bind, deref.
  destruct (h !! l) as [[d | xs] | ]; eexists; reflexivity.
Qed.

(** A reference is never accepted as a key or an index. *)
Lemma setitem_ref_key (target x : pyval) (l : loc) (h : heap) :
  ∃ o, setitem target (VRef l) x h = (o, h) ∧ ∀ u, o ≠ Ret u.
Proof.
  unfold setitem, hash_key, type_of, mbind, M_bind, bind, deref.
  destruct target as [ | b | z | s | ls]; try (eexists; split; [reflexivity | done]).
  destruct (h !! ls) as [[m | ys] | ]; cbn;
    destruct (h !! l) as [o | ]; eexists; (split; [reflexivity | done]).
Qed.

(** Whatever the argument, either the call leaves nothing behind but the
    unused default dict, or the argument is a record with a truthy
    hashable invoice number. *)
Lemma store_invoice_cases (c : ActionContext) (x : pyval) (h : heap) :
  (store_invoice c x h).2 = <[fresh (dom h) := ODict ∅]> h
  ∨ ∃ r d n k, x = VRef r ∧ h !! r = Some (ODict d)
               ∧ d !! KStr "invoice_number" = Some n
               ∧ truthy_scalar n ∧ key_of n = Some k.
Proof.
  unfold store_invoice, mbind, M_bind, bind. cbn [alloc].
  set (l0 := fresh (dom h)). set (h0 := <[l0 := ODict ∅]> h).
  destruct x as [ | b | z | s | r]; try (left; reflexivity).
  unfold dict_get, mbind, M_bind, bind, deref.
  destruct (decide (r = l0)) as [-> | Hne].
  { left. unfold h0 at 1. rewrite lookup_insert_eq. cbn.
    rewrite lookup_empty. reflexivity. }
  unfold h0 at 1. rewrite lookup_insert_ne by done. fold h0.
  destruct (h !! r) as [[d | xs] | ] eqn:Hr; try (left; reflexivity).
  cbn [hash_key key_of mret M_ret ret].
  destruct (d !! KStr "invoice_number") as [n | ] eqn:Hd;
    [ | left; reflexivity ].
  cbn [default from_option]. unfold id.
  destruct n as [ | b | z | s | l].
  - left; reflexivity.
  - destruct b; [ | left; reflexivity ].
    right. exists r, d, (VBool true), (KInt 1). repeat split; try done. constructor.
  - destruct (decide (z = 0%Z)) as [-> | Hz]; [ left; reflexivity | ].
    right. exists r, d, (VInt z), (KInt z). repeat split; try done. by constructor.
  - destruct (decide (s = EmptyString)) as [-> | Hs]; [ left; reflexivity | ].
    right. exists r, d, (VStr s), (KStr s). repeat split; try done. by constructor.
  - left. destruct (truthy_reads (VRef l) h0) as [o ->].
    destruct o as [[ | ] | e | ]; try reflexivity. cbn [negb].
    destruct (setitem_ref_key (ctx_get c "invoice_storage" (VRef l0))
                (VRef r) l h0) as (o' & -> & Hno).
    destruct o' as [u | e | ]; [ by destruct (Hno u) | reflexivity | reflexivity ].
Qed.

(** ** The invariant of the mapping *)

Lemma keyed_by_number_weaken (h h' : heap) (k : pykey) (v : pyval) :
  h ⊆ h' → keyed_by_number h k v → keyed_by_number h' k v.
Proof.
  intros Hsub (r & d & n & -> & Hr & Hd & Hn & Hk).
  exists r, d, n. repeat split; try done. by eapply lookup_weaken.
Qed.

Lemma store_invariant_weaken (c : ActionContext) (h h' : heap) :
  h ⊆ h' → store_invariant c h → store_invariant c h'.
Proof.
  intros Hsub (ls & m & Hc & Hls & Hall).
  exists ls, m. split; [done | split].
  - by eapply lookup_weaken.
  - intros k v Hkv. eapply keyed_by_number_weaken; [done | by apply Hall].
Qed.

(** Under the invariant the mapping holds references only, so an object
    with a hashable invoice number is not the mapping. *)
Lemma numbered_not_mapping (h : heap) (r ls : loc) (d m : pydict)
    (n : pyval) (k : pykey) :
  h !! ls = Some (ODict m) →
  map_Forall (keyed_by_number h) m →
  h !! r = Some (ODict d) →
  d !! KStr "invoice_number" = Some n →
  key_of n = Some k →
  r ≠ ls.
Proof.
  intros Hls Hall Hr Hd Hk ->.
  assert (d = m) as -> by congruence.
  destruct (Hall _ _ Hd) as (r' & _ & _ & -> & _). discriminate.
Qed.

Lemma store_invoice_keeps_invariant (c : ActionContext) (x : pyval) (h : heap) :
  store_invariant c h → store_invariant c (store_invoice c x h).2.
Proof.
  intros Hinv.
  destruct (store_invoice_cases c x h)
    as [-> | (r & d & n & k & -> & Hr & Hd & Hn & Hk)].
  { eapply store_invariant_weaken; [apply alloc_extends | done]. }
  destruct Hinv as (ls & m & Hc & Hls & Hall).
  destruct (store_invoice_stored c h r ls d m n k)
    as (lr & shown & h' & -> & _ & _ & _ & Hls' & Hframe); try done.
  cbn [snd].
  pose proof (numbered_not_mapping h r ls d m n k Hls Hall Hr Hd Hk) as Hrls.
  exists ls, (<[k := VRef r]> m). split; [done | split; [done | ]].
  apply map_Forall_insert_2.
  - exists r, d, n. repeat split; try done. by apply Hframe.
  - intros k0 v0 Hkv.
    destruct (Hall _ _ Hkv) as (r0 & d0 & n0 & -> & Hr0 & Hd0 & Hn0 & Hk0).
    exists r0, d0, n0. repeat split; try done.
    apply Hframe; [ | done ].
    exact (numbered_not_mapping h r0 ls d0 m n0 k0 Hls Hall Hr0 Hd0 Hk0).
Qed.

(** C9.  Through any run of calls, whatever their arguments and whether
    they succeed or fail, the mapping of the context stays one whose
    every entry is a record with a non-empty invoice number, held under
    the key of that number. *)
Theorem store_invoice_invariant (c : ActionContext) (inputs : list pyval)
    (h : heap) :
  store_invariant c h → store_invariant c (store_all c inputs h).
Proof.
  revert h. induction inputs as [ | x rest IH]; intros h Hinv; cbn.
  - exact Hinv.
  - apply IH, store_invoice_keeps_invariant, Hinv.
Qed.

(** ** Truthiness of the invoice number *)


(** A number that refers to no missing object is falsy, a truthy
    scalar or a truthy container: the three cases are all there is. *)
Lemma number_trichotomy (h : heap) (n : pyval) :
  (∀ l, n = VRef l → is_Some (h !! l)) →
  falsy h n ∨ truthy_scalar n ∨ truthy_container h n.
Proof.
  intros Hclosed. destruct n as [ | [ | ] | z | s | l].
  - left. constructor.
  - right. left. constructor.
  - left. constructor.
  - destruct (decide (z = 0%Z)) as [-> | Hz].
    + left. constructor.
    + right. left. by constructor.
  - destruct (decide (s = EmptyString)) as [-> | Hs].
    + left. constructor.
    + right. left. by constructor.
  - destruct (Hclosed l eq_refl) as [[d | xs] Hl].
    + destruct (decide (d = ∅)) as [-> | Hd].
      * left. by apply falsy_empty_dict.
      * right. right. by eapply truthy_dict.
    + destruct xs as [ | x xs].
      * left. by apply falsy_empty_list.
      * right. right. by eapply truthy_list.
Qed.


(** ** Evaluating a display *)

Lemma lit_nested_ind (P : lit → Prop) :
  (∀ s, P (LStr s)) →
  (∀ z, P (LInt z)) →
  (∀ items, Forall P items → P (LList items)) →
  (∀ entries, Forall (λ kv, P kv.2) entries → P (LDict entries)) →
  ∀ e, P e.
Proof.
  intros Hstr Hint Hlist Hdict. fix IH 1. intros [s | z | items | entries].
  - apply Hstr.
  - apply Hint.
  - apply Hlist. induction items as [ | e items IHitems]; constructor.
    + apply IH.
    + apply IHitems.
  - apply Hdict. induction entries as [ | [k e] entries IHentries]; constructor.
    + apply IH.
    + apply IHentries.
Qed.

(** A display always evaluates, to a value, and touches no object that
    was there before. *)
Lemma build_total (e : lit) (h : heap) :
  ∃ v h', build e h = (Ret v, h') ∧ h ⊆ h'.
Proof.
  revert h. induction e as [s | z | items IH | entries IH] using lit_nested_ind;
    intros h.
  - by exists (VStr s), h.
  - by exists (VInt z), h.
  - assert (∃ vs h1,
      (fix items_of (es : list lit) : M (list pyval) :=
         match es with
         | [] => ret []
         | e' :: es' =>
             bind (build e') (λ v, bind (items_of es') (λ vs, ret (v :: vs)))
         end) items h = (Ret vs, h1) ∧ h ⊆ h1) as (vs & h1 & Hrun & Hsub).
    { revert h. induction IH as [ | e es He _ IHes]; intros h.
      - by exists [], h.
      - destruct (He h) as (v & h1 & Hv & Hsub1).
        destruct (IHes h1) as (vs & h2 & Hvs & Hsub2).
        exists (v :: vs), h2. split; [ | by etrans ].
        unfold bind at 1. rewrite Hv. unfold bind at 1. by rewrite Hvs. }
    exists (VRef (fresh (dom h1))), (<[fresh (dom h1) := OList vs]> h1).
    split.
    + cbn [build]. unfold bind at 1. by rewrite Hrun.
    + etrans; [exact Hsub | apply alloc_extends].
  - assert (∀ acc, ∃ dct h1,
      (fix entries_of (es : list (string * lit)) (acc : pydict) : M pydict :=
         match es with
         | [] => ret acc
         | (k, e') :: es' =>
             bind (build e') (λ v, entries_of es' (<[KStr k := v]> acc))
         end) entries acc h = (Ret dct, h1) ∧ h ⊆ h1) as Hentries.
    { revert h. induction IH as [ | [k e] es He _ IHes]; intros h acc.
      - by exists acc, h.
      - destruct (He h) as (v & h1 & Hv & Hsub1). cbn in Hv.
        destruct (IHes h1 (<[KStr k := v]> acc)) as (dct & h2 & Hd & Hsub2).
        exists dct, h2. split; [ | by etrans ].
        unfold bind at 1. by rewrite Hv. }
    destruct (Hentries ∅) as (dct & h1 & Hrun & Hsub).
    exists (VRef (fresh (dom h1))), (<[fresh (dom h1) := ODict dct]> h1).
    split.
    + cbn [build]. unfold bind at 1. by rewrite Hrun.
    + etrans; [exact Hsub | apply alloc_extends].
Qed.

(** ** The extraction contract *)

(** Both extractors evaluate their schema display and then hand over to
    the capability, whose outcome is theirs. *)
Lemma build_then (A : Type) (e : lit) (k : pyval → M A) (h : heap) :
  ∃ schema h1, build e h = (Ret schema, h1) ∧ h ⊆ h1
               ∧ (build e ≫= k) h = k schema h1.
Proof.
  destruct (build_total e h) as (schema & h1 & Hrun & Hsub).
  exists schema, h1. split; [done | split; [done | ]].
  unfold mbind, M_bind, bind. by rewrite Hrun.
Qed.

(** C7.  Whatever the capability returns, the extractor returns: the
    same value in the same heap, for either schema. *)
Theorem extract_returns_capability_result (prompt_llm_for_json : capability)
    (c : ActionContext) (document_text : string) (h : heap) :
  (∃ schema h1,
     build StructuredData.invoice_schema h = (Ret schema, h1) ∧ h ⊆ h1
     ∧ ∀ d h2,
         prompt_llm_for_json c schema
           (StructuredData.extraction_prompt document_text) h1 = (Ret d, h2) →
         StructuredData.extract_invoice_data prompt_llm_for_json c
           document_text h = (Ret d, h2))
  ∧ (∃ schema h1,
       build Reliability.invoice_schema h = (Ret schema, h1) ∧ h ⊆ h1
       ∧ ∀ d h2,
           prompt_llm_for_json c schema
             (Reliability.extraction_prompt document_text) h1 = (Ret d, h2) →
           Reliability.extract_invoice_data prompt_llm_for_json c
             document_text h = (Ret d, h2)).
Proof.
  split.
  - destruct (build_then _ StructuredData.invoice_schema
                (λ schema, prompt_llm_for_json c schema
                   (StructuredData.extraction_prompt document_text)) h)
      as (schema & h1 & Hrun & Hsub & Heq).
    exists schema, h1. split; [done | split; [done | ]].
    intros d h2 Hllm. unfold StructuredData.extract_invoice_data.
    by rewrite Heq.
  - destruct (build_then _ Reliability.invoice_schema
                (λ schema, prompt_llm_for_json c schema
                   (Reliability.extraction_prompt document_text)) h)
      as (schema & h1 & Hrun & Hsub & Heq).
    exists schema, h1. split; [done | split; [done | ]].
    intros d h2 Hllm. unfold Reliability.extract_invoice_data.
    by rewrite Heq.
Qed.

(** C8.  Whatever the capability raises, the extractor raises, in the
    heap the capability left; the extractor itself changes no existing
    object, so when the capability leaves them alone the invoice mapping
    of the context is as before the call. *)
Theorem extract_propagates_capability_error (prompt_llm_for_json : capability)
    (c : ActionContext) (document_text : string) (h : heap) :
  (∃ schema h1,
     build StructuredData.invoice_schema h = (Ret schema, h1) ∧ h ⊆ h1
     ∧ ∀ e h2,
         prompt_llm_for_json c schema
           (StructuredData.extraction_prompt document_text) h1 = (Raise e, h2) →
         StructuredData.extract_invoice_data prompt_llm_for_json c
           document_text h = (Raise e, h2)
         ∧ (h1 ⊆ h2 →
            ∀ m, invoice_mapping c h = Some m → invoice_mapping c h2 = Some m))
  ∧ (∃ schema h1,
       build Reliability.invoice_schema h = (Ret schema, h1) ∧ h ⊆ h1
       ∧ ∀ e h2,
           prompt_llm_for_json c schema
             (Reliability.extraction_prompt document_text) h1 = (Raise e, h2) →
           Reliability.extract_invoice_data prompt_llm_for_json c
             document_text h = (Raise e, h2)
           ∧ (h1 ⊆ h2 →
              ∀ m, invoice_mapping c h = Some m → invoice_mapping c h2 = Some m)).
Proof.
  split.
  - destruct (build_then _ StructuredData.invoice_schema
                (λ schema, prompt_llm_for_json c schema
                   (StructuredData.extraction_prompt document_text)) h)
      as (schema & h1 & Hrun & Hsub & Heq).
    exists schema, h1. split; [done | split; [done | ]].
    intros e h2 Hllm. split.
    + unfold StructuredData.extract_invoice_data. by rewrite Heq.
    + intros Hsub2 m. apply invoice_mapping_weaken. by etrans.
  - destruct (build_then _ Reliability.invoice_schema
                (λ schema, prompt_llm_for_json c schema
                   (Reliability.extraction_prompt document_text)) h)
      as (schema & h1 & Hrun & Hsub & Heq).
    exists schema, h1. split; [done | split; [done | ]].
    intros e h2 Hllm. split.
    + unfold Reliability.extract_invoice_data. by rewrite Heq.
    + intros Hsub2 m. apply invoice_mapping_weaken. by etrans.
Qed.

(** * The theorems at the sample data *)

Lemma store_invoice_requires_number_witness :
  ∃ h', store_invoice stored_ctx (VRef 2%positive) h_unnumbered
        = (Raise missing_number, h')
        ∧ h_unnumbered ⊆ h'
        ∧ ∀ m, invoice_mapping stored_ctx h_unnumbered = Some m →
               invoice_mapping stored_ctx h' = Some m.
Proof.
  apply (store_invoice_requires_number stored_ctx h_unnumbered 2%positive
           (record_at h_unnumbered 2%positive)).
  - vm_compute. reflexivity.
  - left. vm_compute. reflexivity.
Defined.

Lemma store_invoice_round_trip_witness :
  ∃ v h' m',
    store_invoice stored_ctx (VRef 3%positive) h_inv_100 = (Ret v, h')
    ∧ invoice_mapping stored_ctx h' = Some m'
    ∧ m' !! KStr "INV-100" = Some (VRef 3%positive)
    ∧ (3%positive ≠ store_loc →
       h' !! 3%positive = Some (ODict (record_at h_inv_100 3%positive))).
Proof.
  apply (store_invoice_round_trip stored_ctx h_inv_100 3%positive store_loc
           (record_at h_inv_100 3%positive) ∅ "INV-100").
  - reflexivity.
  - vm_compute. reflexivity.
  - vm_compute. reflexivity.
  - vm_compute. reflexivity.
  - discriminate.
Defined.

Lemma store_invoice_idempotent_witness :
  ∃ v1 h1 v2 h2 m',
    store_invoice stored_ctx (VRef 3%positive) h_inv_100 = (Ret v1, h1)
    ∧ store_invoice stored_ctx (VRef 3%positive) h1 = (Ret v2, h2)
    ∧ m' = <[KStr "INV-100" := VRef 3%positive]> ∅
    ∧ invoice_mapping stored_ctx h1 = Some m'
    ∧ invoice_mapping stored_ctx h2 = Some m'
    ∧ m' !! KStr "INV-100" = Some (VRef 3%positive)
    ∧ size (filter (λ kv, kv.1 = KStr "INV-100") m') = 1
    ∧ h2 !! 3%positive = Some (ODict (record_at h_inv_100 3%positive)).
Proof.
  apply (store_invoice_idempotent stored_ctx h_inv_100 3%positive store_loc
           (record_at h_inv_100 3%positive) ∅ "INV-100").
  - reflexivity.
  - vm_compute. reflexivity.
  - vm_compute. reflexivity.
  - vm_compute. reflexivity.
  - discriminate.
  - discriminate.
Defined.

Lemma store_invoice_overwrites_witness :
  ∃ v1 h1 v2 h2 m1 m2,
    store_invoice stored_ctx (VRef 3%positive) h_inv_1 = (Ret v1, h1)
    ∧ store_invoice stored_ctx (VRef 5%positive) h1 = (Ret v2, h2)
    ∧ invoice_mapping stored_ctx h1 = Some m1
    ∧ invoice_mapping stored_ctx h2 = Some m2
    ∧ m2 !! KStr "INV-1" = Some (VRef 5%positive)
    ∧ size m2 = size m1
    ∧ (∀ k, k ≠ KStr "INV-1" → m2 !! k = m1 !! k)
    ∧ h2 !! 5%positive = Some (ODict (record_at h_inv_1 5%positive)).
Proof.
  apply (store_invoice_overwrites stored_ctx h_inv_1 3%positive 5%positive
           store_loc (record_at h_inv_1 3%positive)
           (record_at h_inv_1 5%positive) ∅ "INV-1").
  - reflexivity.
  - vm_compute. reflexivity.
  - vm_compute. reflexivity.
  - vm_compute. reflexivity.
  - vm_compute. reflexivity.
  - vm_compute. reflexivity.
  - discriminate.
  - discriminate.
  - discriminate.
Defined.

(** The overwrite of the spec, run: after the two stores the entry under
    INV-1 reads date 2024-01-02 and amount value 200, and the mapping has
    one entry after the first store and one after the second. *)
Example overwrite_inv_1 :
  let h1 := (store_invoice stored_ctx (VRef 3%positive) h_inv_1).2 in
  let h2 := (store_invoice stored_ctx (VRef 5%positive) h1).2 in
  let entry := default VNone (field h2 (VRef store_loc) "INV-1") in
  field h2 entry "date" = Some (VStr "2024-01-02")
  ∧ field h2 (default VNone (field h2 entry "amount")) "value" = Some (VInt 200)
  ∧ size <$> invoice_mapping stored_ctx h1 = Some 1
  ∧ size <$> invoice_mapping stored_ctx h2 = Some 1.
Proof. vm_compute. repeat split; reflexivity. Qed.

Lemma store_invoice_unattached_default_witness :
  ∃ v h',
    store_invoice bare_ctx (VRef 3%positive) h_inv_100 = (Ret v, h')
    ∧ field h' v "status" = Some (VStr "success")
    ∧ h' !! fresh (dom h_inv_100)
      = Some (ODict {[KStr "INV-100" := VRef 3%positive]})
    ∧ invoice_mapping bare_ctx h' = None
    ∧ h_inv_100 ⊆ h'.
Proof.
  apply (store_invoice_unattached_default bare_ctx h_inv_100 3%positive
           (record_at h_inv_100 3%positive) "INV-100").
  - reflexivity.
  - vm_compute. reflexivity.
  - vm_compute. reflexivity.
  - discriminate.
Defined.

Lemma store_invoice_success_shape_witness :
  ∃ lr h',
    store_invoice stored_ctx (VRef 3%positive) h_inv_100 = (Ret (VRef lr), h')
    ∧ h_inv_100 !! lr = None
    ∧ h' !! lr = Some (ODict (success_descriptor (VStr "INV-100") "INV-100"))
    ∧ field h' (VRef lr) "status" = Some (VStr "success")
    ∧ field h' (VRef lr) "message" = Some (VStr "Stored invoice INV-100")
    ∧ field h' (VRef lr) "invoice_number" = Some (VStr "INV-100").
Proof.
  apply (store_invoice_success_shape stored_ctx h_inv_100 3%positive
           (record_at h_inv_100 3%positive) "INV-100").
  - vm_compute. reflexivity.
  - vm_compute. reflexivity.
  - discriminate.
  - right. exists store_loc, ∅. split; [reflexivity | vm_compute; reflexivity].
Defined.

Lemma extract_returns_capability_result_witness :
  ∃ v h',
    Reliability.extract_invoice_data (stub_returning inv_a1) bare_ctx
      "Invoice A1 of 2024-02-02, 10 EUR" ∅ = (Ret v, h')
    ∧ field h' v "invoice_number" = Some (VStr "A1")
    ∧ field h' v "date" = Some (VStr "2024-02-02")
    ∧ field h' (default VNone (field h' v "amount")) "value" = Some (VInt 10)
    ∧ field h' (default VNone (field h' v "amount")) "currency"
      = Some (VStr "EUR").
Proof.
  destruct (extract_returns_capability_result (stub_returning inv_a1) bare_ctx
              "Invoice A1 of 2024-02-02, 10 EUR" ∅)
    as [_ (schema & h1 & Hbuild & _ & Hrun)].
  vm_compute in Hbuild. injection Hbuild as <- <-.
  eexists _, _. split.
  - apply Hrun. vm_compute. reflexivity.
  - vm_compute. repeat split; reflexivity.
Defined.

Lemma extract_propagates_capability_error_witness :
  ∃ h',
    StructuredData.extract_invoice_data (stub_failing extraction_failure)
      stored_ctx "not an invoice" empty_store = (Raise extraction_failure, h')
    ∧ invoice_mapping stored_ctx h' = Some ∅.
Proof.
  destruct (extract_propagates_capability_error (stub_failing extraction_failure)
              stored_ctx "not an invoice" empty_store)
    as [(schema & h1 & _ & _ & Hrun) _].
  exists h1. destruct (Hrun extraction_failure h1) as [Hraise Hmap].
  - reflexivity.
  - split; [exact Hraise | ]. apply Hmap; reflexivity.
Defined.

Lemma store_invoice_invariant_witness :
  store_invariant stored_ctx
    (store_all stored_ctx [VRef 3%positive; VRef 5%positive; VInt 4; VRef 3%positive]
       h_inv_1).
Proof.
  apply store_invoice_invariant.
  exists store_loc, ∅. split; [reflexivity | split].
  - vm_compute. reflexivity.
  - apply map_Forall_empty.
Defined.


(** The number 7 is stored under the int key 7; a number that is a
    non-empty list is truthy, is not a string, and is refused as a key. *)
Example int_number_stored :
  (store_invoice stored_ctx (VRef 2%positive) h_int_number).1 = Ret (VRef 4%positive)
  ∧ field (store_invoice stored_ctx (VRef 2%positive) h_int_number).2
      (VRef 4%positive) "message" = Some (VStr "Stored invoice 7")
  ∧ (invoice_mapping stored_ctx
       (store_invoice stored_ctx (VRef 2%positive) h_int_number).2
     ≫= λ m, m !! KInt 7) = Some (VRef 2%positive).
Proof. vm_compute. repeat split; reflexivity. Qed.


Example list_number_type_error :
  field h_list_number (VRef 3%positive) "invoice_number" = Some (VRef 2%positive)
  ∧ h_list_number !! 2%positive = Some (OList [VStr "INV-7"])
  ∧ truthy (VRef 2%positive) h_list_number = (Ret true, h_list_number)
  ∧ (∃ msg, (store_invoice stored_ctx (VRef 3%positive) h_list_number).1
            = Raise (TypeError msg))
  ∧ invoice_mapping stored_ctx
      (store_invoice stored_ctx (VRef 3%positive) h_list_number).2 = Some ∅.
Proof.
  split; [ | split; [ | split; [ | split ] ] ].
  - vm_compute. reflexivity.
  - vm_compute. reflexivity.
  - vm_compute. reflexivity.
  - eexists. vm_compute. reflexivity.
  - vm_compute. reflexivity.
Qed.

(** * More on store_invoice *)

(** ** Failure and success, whatever the argument and the context *)


(** The call on a record with a truthy hashable number, for any context:
    it is the item assignment, followed on success by the descriptor. *)
Lemma store_invoice_numbered (c : ActionContext) (h : heap) (r : loc)
    (d : pydict) (n : pyval) (k : pykey) :
  h !! r = Some (ODict d) →
  d !! KStr "invoice_number" = Some n →
  truthy_scalar n →
  key_of n = Some k →
  ∃ shown, format_value n = Some shown ∧
  store_invoice c (VRef r) h =
  let h0 := <[fresh (dom h) := ODict ∅]> h in
  match setitem (ctx_get c "invoice_storage" (VRef (fresh (dom h)))) n (VRef r) h0 with
  | (Ret _, h1) =>
      (Ret (VRef (fresh (dom h1))),
       <[fresh (dom h1) := ODict (success_descriptor n shown)]> h1)
  | (Raise e, h1) => (Raise e, h1)
  | (Wrong, h1) => (Wrong, h1)
  end.
Proof.
  intros Hr Hd Hn Hk.
  destruct (format_scalar _ _ Hk) as [shown Hshown]. exists shown.
  split; [done | ].
  set (l0 := fresh (dom h)). set (h0 := <[l0 := ODict ∅]> h). cbn zeta.
  assert (Hr0 : h0 !! r = Some (ODict d)).
  { eapply lookup_weaken; [exact Hr | apply alloc_extends]. }
  unfold store_invoice, mbind, M_bind, bind. cbn [alloc]. fold l0 h0.
  rewrite (dict_get_record h0 r d _ Hr0), Hd. cbn [default from_option]; unfold id.
  rewrite (truthy_of_scalar _ _ Hn). cbn [negb].
  destruct (setitem _ n (VRef r) h0) as [[u | e | ] h1]; [ | done | done].
  rewrite Hshown. reflexivity.
Qed.

(** Every call either fails, leaving only the unused default dict, or is
    a call on a numbered record. *)
Lemma store_invoice_fails_or_numbered (c : ActionContext) (x : pyval) (h : heap) :
  (∃ o, store_invoice c x h = (o, <[fresh (dom h) := ODict ∅]> h)
        ∧ ∀ v, o ≠ Ret v)
  ∨ ∃ r d n k, x = VRef r ∧ h !! r = Some (ODict d)
               ∧ d !! KStr "invoice_number" = Some n
               ∧ truthy_scalar n ∧ key_of n = Some k.
Proof.
  unfold store_invoice, mbind, M_bind, bind. cbn [alloc].
  set (l0 := fresh (dom h)). set (h0 := <[l0 := ODict ∅]> h).
  destruct x as [ | b | z | s | r];
    try (left; eexists; split; [reflexivity | done]).
  unfold dict_get, mbind, M_bind, bind, deref.
  destruct (decide (r = l0)) as [-> | Hne].
  { left. unfold h0 at 1. rewrite lookup_insert_eq. cbn.
    rewrite lookup_empty. eexists; split; [reflexivity | done]. }
  unfold h0 at 1. rewrite lookup_insert_ne by done. fold h0.
  destruct (h !! r) as [[d | xs] | ] eqn:Hr;
    try (left; eexists; split; [reflexivity | done]).
  cbn [hash_key key_of mret M_ret ret].
  destruct (d !! KStr "invoice_number") as [n | ] eqn:Hd;
    [ | left; eexists; split; [reflexivity | done] ].
  cbn [default from_option]. unfold id.
  destruct n as [ | b | z | s | l].
  - left; eexists; split; [reflexivity | done].
  - destruct b; [ | left; eexists; split; [reflexivity | done] ].
    right. exists r, d, (VBool true), (KInt 1). repeat split; try done. constructor.
  - destruct (decide (z = 0%Z)) as [-> | Hz];
      [ left; eexists; split; [reflexivity | done] | ].
    right. exists r, d, (VInt z), (KInt z). repeat split; try done. by constructor.
  - destruct (decide (s = EmptyString)) as [-> | Hs];
      [ left; eexists; split; [reflexivity | done] | ].
    right. exists r, d, (VStr s), (KStr s). repeat split; try done. by constructor.
  - left. destruct (truthy_reads (VRef l) h0) as [o ->].
    destruct o as [[ | ] | e | ]; try (eexists; split; [reflexivity | done]).
    cbn [negb].
    destruct (setitem_ref_key (ctx_get c "invoice_storage" (VRef l0))
                (VRef r) l h0) as (o' & -> & Hno).
    destruct o' as [u | e | ]; [ by destruct (Hno u) | | ];
      eexists; split; try reflexivity; done.
Qed.


(** X2.  A call that returns was given a dict whose invoice number is a
    truthy hashable value, and what it returns is a new dict that reports
    success with that very value as its invoice number. *)
Theorem store_invoice_success_needs_number (c : ActionContext) (x : pyval)
    (h : heap) (v : pyval) (h' : heap) :
  store_invoice c x h = (Ret v, h') →
  ∃ r d n,
    x = VRef r ∧ h !! r = Some (ODict d)
    ∧ d !! KStr "invoice_number" = Some n
    ∧ truthy_scalar n
    ∧ field h' v "status" = Some (VStr "success")
    ∧ field h' v "invoice_number" = Some n.
Proof.
  intros Hrun.
  destruct (store_invoice_fails_or_numbered c x h)
    as [(o' & Hrun' & Hfail) | (r & d & n & k & -> & Hr & Hd & Hn & Hk)].
  { rewrite Hrun in Hrun'. injection Hrun' as <- _. by destruct (Hfail v). }
  exists r, d, n. do 4 (split; [done | ]).
  destruct (store_invoice_numbered c h r d n k Hr Hd Hn Hk)
    as (shown & _ & Heq).
  rewrite Heq in Hrun. cbn zeta in Hrun.
  destruct (setitem _ n (VRef r) _) as [[u | e | ] h1]; try discriminate.
  injection Hrun as <- <-. unfold field. rewrite lookup_insert_eq.
  split; reflexivity.
Qed.

(** ** Insert, update, and what a store leaves alone *)


(** X4.  Whatever it is called with, a call never takes an entry out of
    the mapping of the context: the keys that were there are there
    afterwards, and at most one key is new. *)
Theorem store_invoice_never_removes (c : ActionContext) (x : pyval) (h : heap)
    (ls : loc) (m : pydict) :
  properties c !! "invoice_storage" = Some (VRef ls) →
  h !! ls = Some (ODict m) →
  ∃ m', invoice_mapping c (store_invoice c x h).2 = Some m'
        ∧ dom m ⊆ dom m'
        ∧ (size m ≤ size m' ≤ S (size m))%nat.
Proof.
  intros Hc Hls.
  destruct (store_invoice_cases c x h)
    as [-> | (r & d & n & k & -> & Hr & Hd & Hn & Hk)].
  - exists m. split; [ | split].
    + apply (invoice_mapping_held c _ ls); [done | ].
      eapply lookup_weaken; [exact Hls | apply alloc_extends].
    + done.
    + split; [done | apply Nat.le_succ_diag_r].
  - destruct (store_invoice_stored c h r ls d m n k)
      as (lr & shown & h' & -> & _ & _ & _ & Hls' & _); try done.
    exists (<[k := VRef r]> m). cbn [snd].
    split; [by apply (invoice_mapping_held c h' ls) | split].
    + rewrite dom_insert_L. set_solver.
    + destruct (m !! k) as [v0 | ] eqn:Hmk.
      * rewrite map_size_insert_Some by (by eexists). split; [done | apply Nat.le_succ_diag_r].
      * rewrite map_size_insert_None by done. split; [apply Nat.le_succ_diag_r | done].
Qed.

(** X5.  Two records with different keys can be stored in either order:
    the mapping ends up the same. *)
Theorem store_invoice_commutes (c : ActionContext) (h : heap)
    (r1 r2 ls : loc) (d1 d2 m : pydict) (n1 n2 : pyval) (k1 k2 : pykey) :
  properties c !! "invoice_storage" = Some (VRef ls) →
  h !! ls = Some (ODict m) →
  h !! r1 = Some (ODict d1) →
  h !! r2 = Some (ODict d2) →
  d1 !! KStr "invoice_number" = Some n1 →
  d2 !! KStr "invoice_number" = Some n2 →
  truthy_scalar n1 → truthy_scalar n2 →
  key_of n1 = Some k1 → key_of n2 = Some k2 →
  k1 ≠ k2 →
  r1 ≠ ls → r2 ≠ ls →
  ∃ m',
    invoice_mapping c
      (store_invoice c (VRef r2) (store_invoice c (VRef r1) h).2).2 = Some m'
    ∧ invoice_mapping c
        (store_invoice c (VRef r1) (store_invoice c (VRef r2) h).2).2 = Some m'
    ∧ m' !! k1 = Some (VRef r1)
    ∧ m' !! k2 = Some (VRef r2).
Proof.
  intros Hc Hls Hr1 Hr2 Hd1 Hd2 Hn1 Hn2 Hk1 Hk2 Hne Hne1 Hne2.
  exists (<[k2 := VRef r2]> (<[k1 := VRef r1]> m)).
  split; [ | split; [ | split]].
  - destruct (store_invoice_stored c h r1 ls d1 m n1 k1)
      as (la & sa & ha & -> & _ & _ & _ & Hlsa & Hfa); try done. cbn [snd].
    destruct (store_invoice_stored c ha r2 ls d2 (<[k1 := VRef r1]> m) n2 k2)
      as (lb & sb & hb & -> & _ & _ & _ & Hlsb & _); try done.
    { by apply Hfa. }
    by apply (invoice_mapping_held c hb ls).
  - destruct (store_invoice_stored c h r2 ls d2 m n2 k2)
      as (la & sa & ha & -> & _ & _ & _ & Hlsa & Hfa); try done. cbn [snd].
    destruct (store_invoice_stored c ha r1 ls d1 (<[k2 := VRef r2]> m) n1 k1)
      as (lb & sb & hb & -> & _ & _ & _ & Hlsb & _); try done.
    { by apply Hfa. }
    cbn [snd]. rewrite insert_insert_ne in Hlsb by done.
    by apply (invoice_mapping_held c hb ls).
  - rewrite lookup_insert_ne by done. apply lookup_insert_eq.
  - apply lookup_insert_eq.
Qed.

(** X6.  A record numbered [True] and a record numbered [1] meet on one
    key, [True == 1]: stored one after the other, the second replaces
    the first and the mapping does not grow. *)
Theorem store_invoice_true_is_one (c : ActionContext) (h : heap)
    (r1 r2 ls : loc) (d1 d2 m : pydict) :
  properties c !! "invoice_storage" = Some (VRef ls) →
  h !! ls = Some (ODict m) →
  h !! r1 = Some (ODict d1) →
  h !! r2 = Some (ODict d2) →
  d1 !! KStr "invoice_number" = Some (VBool true) →
  d2 !! KStr "invoice_number" = Some (VInt 1) →
  r1 ≠ ls → r2 ≠ ls →
  ∃ v1 h1 v2 h2 m1 m2,
    store_invoice c (VRef r1) h = (Ret v1, h1)
    ∧ store_invoice c (VRef r2) h1 = (Ret v2, h2)
    ∧ invoice_mapping c h1 = Some m1
    ∧ invoice_mapping c h2 = Some m2
    ∧ m1 !! KInt 1 = Some (VRef r1)
    ∧ m2 !! KInt 1 = Some (VRef r2)
    ∧ size m2 = size m1
    ∧ field h2 v1 "invoice_number" = Some (VBool true)
    ∧ field h2 v2 "invoice_number" = Some (VInt 1).
Proof.
  intros Hc Hls Hr1 Hr2 Hd1 Hd2 Hne1 Hne2.
  destruct (store_invoice_stored c h r1 ls d1 m (VBool true) (KInt 1))
    as (l1 & s1 & h1 & Hrun1 & [= <-] & Hnew1 & Hdesc1 & Hls1 & Hframe1);
    [done.. | constructor | done | ].
  assert (Hr2' : h1 !! r2 = Some (ODict d2)) by (by apply Hframe1).
  destruct (store_invoice_stored c h1 r2 ls d2 (<[KInt 1 := VRef r1]> m)
              (VInt 1) (KInt 1))
    as (l2 & s2 & h2 & Hrun2 & [= <-] & Hnew2 & Hdesc2 & Hls2 & Hframe2);
    [done.. | by constructor | done | ].
  assert (Hl1 : l1 ≠ ls) by congruence.
  exists (VRef l1), h1, (VRef l2), h2,
    (<[KInt 1 := VRef r1]> m), (<[KInt 1 := VRef r2]> (<[KInt 1 := VRef r1]> m)).
  split; [done | split; [done | ]].
  split; [by apply (invoice_mapping_held c h1 ls) | ].
  split; [by apply (invoice_mapping_held c h2 ls) | ].
  split; [apply lookup_insert_eq | split; [apply lookup_insert_eq | ]].
  split; [ | split].
  - apply map_size_insert_Some. rewrite lookup_insert_eq. by eexists.
  - unfold field. by rewrite (Hframe2 _ _ Hl1 Hdesc1).
  - unfold field. by rewrite Hdesc2.
Qed.


(** ** Arguments and contexts of the wrong shape *)

(** X7.  An argument that is not a dict (None, a bool, an int, a string,
    a list) has no [get]: the call raises AttributeError and changes no
    object. *)
Theorem store_invoice_not_a_dict (c : ActionContext) (x : pyval) (h : heap) :
  is_Some (key_of x) ∨ (∃ l xs, x = VRef l ∧ h !! l = Some (OList xs)) →
  ∃ msg h',
    store_invoice c x h = (Raise (AttributeError msg), h') ∧ h ⊆ h'.
Proof.
  intros [[k Hk] | (l & xs & -> & Hl)].
  - destruct x as [ | b | z | s | l]; try discriminate;
      eexists _, _; (split; [reflexivity | apply alloc_extends]).
  - eexists _, _. split; [ | apply alloc_extends].
    unfold store_invoice, dict_get, mbind, M_bind, bind. cbn [alloc].
    rewrite (deref_used _ l (OList xs)); [reflexivity | ].
    eapply lookup_weaken; [exact Hl | apply alloc_extends].
Qed.

(** X8.  The storage is not checked to be a mapping.  When the context
    holds a scalar under [invoice_storage], or a list while the number
    is a string, a numbered record passes the check and the assignment
    raises TypeError; no object changes. *)
Theorem store_invoice_storage_not_mapping (c : ActionContext) (h : heap)
    (r : loc) (d : pydict) (n st : pyval) :
  h !! r = Some (ODict d) →
  d !! KStr "invoice_number" = Some n →
  truthy_scalar n →
  properties c !! "invoice_storage" = Some st →
  is_Some (key_of st)
    ∨ (∃ ll ys s, st = VRef ll ∧ h !! ll = Some (OList ys) ∧ n = VStr s) →
  ∃ msg h',
    store_invoice c (VRef r) h = (Raise (TypeError msg), h') ∧ h ⊆ h'.
Proof.
  intros Hr Hd Hn Hc Hst.
  destruct (truthy_scalar_hashable _ Hn) as [k Hk].
  destruct (store_invoice_numbered c h r d n k Hr Hd Hn Hk) as (shown & _ & ->).
  cbn zeta. unfold ctx_get. rewrite Hc. cbn [default from_option]; unfold id.
  destruct Hst as [[kst Hkst] | (ll & ys & s & -> & Hll & ->)].
  - destruct st as [ | b | z | s | l]; try discriminate;
      eexists _, _; (split; [reflexivity | apply alloc_extends]).
  - eexists _, _. split; [ | apply alloc_extends].
    unfold setitem, mbind, M_bind, bind.
    rewrite (deref_used _ ll (OList ys)); [reflexivity | ].
    eapply lookup_weaken; [exact Hll | apply alloc_extends].
Qed.

(** ** Sharing *)

(** X9.  The mapping keeps the record itself, not a copy: a later write
    to a field of the record is read through the entry of the mapping. *)
Theorem store_invoice_keeps_reference (c : ActionContext) (h : heap)
    (r ls : loc) (d m : pydict) (s name : string) (v : pyval) :
  properties c !! "invoice_storage" = Some (VRef ls) →
  h !! ls = Some (ODict m) →
  h !! r = Some (ODict d) →
  d !! KStr "invoice_number" = Some (VStr s) →
  s ≠ EmptyString →
  r ≠ ls →
  ∃ v0 h' h'' m',
    store_invoice c (VRef r) h = (Ret v0, h')
    ∧ setitem (VRef r) (VStr name) v h' = (Ret tt, h'')
    ∧ invoice_mapping c h'' = Some m'
    ∧ field h'' (default VNone (m' !! KStr s)) name = Some v.
Proof.
  intros Hc Hls Hr Hd Hs Hne.
  destruct (store_invoice_stored c h r ls d m (VStr s) (KStr s))
    as (lr & shown & h' & Hrun & _ & _ & _ & Hls' & Hframe);
    [done.. | by apply truthy_str | done | ].
  assert (Hr' : h' !! r = Some (ODict d)) by (by apply Hframe).
  exists (VRef lr), h', (<[r := ODict (<[KStr name := v]> d)]> h'),
    (<[KStr s := VRef r]> m).
  split; [done | split; [ | split]].
  - by apply (setitem_dict h' r d (VStr name) v (KStr name)).
  - apply (invoice_mapping_held c _ ls); [done | ].
    by rewrite lookup_insert_ne.
  - rewrite lookup_insert_eq. cbn [default from_option]; unfold id.
    unfold field. rewrite lookup_insert_eq. apply lookup_insert_eq.
Qed.

(** X10.  The mapping is shared by every context that holds it: a store
    through one context shows through another that refers to the same
    mapping object. *)
Theorem store_invoice_shared_mapping (c1 c2 : ActionContext) (h : heap)
    (r ls : loc) (d m : pydict) (s : string) :
  properties c1 !! "invoice_storage" = Some (VRef ls) →
  properties c2 !! "invoice_storage" = Some (VRef ls) →
  h !! ls = Some (ODict m) →
  h !! r = Some (ODict d) →
  d !! KStr "invoice_number" = Some (VStr s) →
  s ≠ EmptyString →
  ∃ v h' m',
    store_invoice c1 (VRef r) h = (Ret v, h')
    ∧ invoice_mapping c2 h' = Some m'
    ∧ m' !! KStr s = Some (VRef r).
Proof.
  intros Hc1 Hc2 Hls Hr Hd Hs.
  destruct (store_invoice_stored c1 h r ls d m (VStr s) (KStr s))
    as (lr & shown & h' & Hrun & _ & _ & _ & Hls' & _);
    [done.. | by apply truthy_str | done | ].
  exists (VRef lr), h', (<[KStr s := VRef r]> m).
  split; [done | split; [by apply (invoice_mapping_held c2 h' ls) | ]].
  apply lookup_insert_eq.
Qed.

(** ** A run of stores *)

Lemma numbered_record_frame (h h' : heap) (ls : loc) (e : loc * string) :
  (∀ l o, l ≠ ls → h !! l = Some o → h' !! l = Some o) →
  numbered_record h ls e → numbered_record h' ls e.
Proof.
  intros Hframe (Hne & Hs & d & Hr & Hd).
  split; [done | split; [done | ]]. exists d. split; [by apply Hframe | done].
Qed.

(** X11.  A run of stores of numbered records leaves the mapping that
    the same run of map writes gives: each record under its number, a
    later record replacing an earlier one with the same number. *)
Theorem store_all_upserts (c : ActionContext) (entries : list (loc * string))
    (h : heap) (ls : loc) (m : pydict) :
  properties c !! "invoice_storage" = Some (VRef ls) →
  h !! ls = Some (ODict m) →
  Forall (numbered_record h ls) entries →
  invoice_mapping c (store_all c ((λ e, VRef e.1) <$> entries) h)
  = Some (upsert_all m entries).
Proof.
  intros Hc. revert h m.
  induction entries as [ | [r s] rest IH]; intros h m Hls Hall; cbn.
  - by apply (invoice_mapping_held c h ls).
  - apply Forall_cons in Hall as [(Hne & Hs & d & Hr & Hd) Hrest].
    cbn in Hne, Hs, Hr, Hd.
    destruct (store_invoice_stored c h r ls d m (VStr s) (KStr s))
      as (lr & shown & h' & -> & _ & _ & _ & Hls' & Hframe);
      [done.. | by apply truthy_str | done | ].
    cbn [snd]. apply IH; [done | ].
    eapply Forall_impl; [exact Hrest | ].
    intros e. by apply numbered_record_frame.
Qed.

(** * More on extract_invoice_data *)

(** ** The prompt *)

Lemma append_length (a b : string) :
  String.length (a +:+ b) = String.length a + String.length b.
Proof. induction a as [ | x a IH]; [done | ]. cbn. rewrite <- IH. reflexivity. Qed.

Lemma append_inj_r (t a b : string) : a +:+ t = b +:+ t → a = b.
Proof.
  revert b. induction a as [ | x a IH]; intros [ | y b] Heq.
  - done.
  - apply (f_equal String.length) in Heq.
    rewrite !append_length in Heq. cbn in Heq. lia.
  - apply (f_equal String.length) in Heq.
    rewrite !append_length in Heq. cbn in Heq. lia.
  - change (String x (a +:+ t) = String y (b +:+ t)) in Heq.
    injection Heq as -> Heq. f_equal. by apply IH.
Qed.

(** X12.  The prompt carries the document text whole: in either
    variant, two different texts give two different prompts. *)
Theorem extraction_prompt_keeps_text (doc1 doc2 : string) :
  doc1 ≠ doc2 →
  StructuredData.extraction_prompt doc1 ≠ StructuredData.extraction_prompt doc2
  ∧ Reliability.extraction_prompt doc1 ≠ Reliability.extraction_prompt doc2.
Proof.
  intros Hne. split; intros Heq; apply Hne.
  - unfold StructuredData.extraction_prompt in Heq.
    apply String.app_inj in Heq. by apply append_inj_r in Heq.
  - unfold Reliability.extraction_prompt in Heq.
    apply String.app_inj in Heq. by apply append_inj_r in Heq.
Qed.

(** ** Extraction followed by storage *)

Lemma with_display_build (e : lit) (h : heap) :
  build e h = (Ret (with_display e h).1, (with_display e h).2).
Proof.
  unfold with_display. destruct (build_total e h) as (v & h' & -> & _). done.
Qed.

(** X13.  The pipeline the tools are written for: when the capability
    answers with a dict that carries a non-empty string number, storing
    the extractor's result puts that very dict into the mapping under
    its number and reports it. *)
Theorem extract_then_store (prompt_llm_for_json : capability)
    (c : ActionContext) (document_text : string) (h h2 : heap)
    (r ls : loc) (d m : pydict) (s : string) :
  prompt_llm_for_json c (with_display StructuredData.invoice_schema h).1
    (StructuredData.extraction_prompt document_text)
    (with_display StructuredData.invoice_schema h).2 = (Ret (VRef r), h2) →
  properties c !! "invoice_storage" = Some (VRef ls) →
  h2 !! ls = Some (ODict m) →
  h2 !! r = Some (ODict d) →
  d !! KStr "invoice_number" = Some (VStr s) →
  s ≠ EmptyString →
  ∃ v h3,
    (StructuredData.extract_invoice_data prompt_llm_for_json c document_text
       ≫= store_invoice c) h = (Ret v, h3)
    ∧ invoice_mapping c h3 = Some (<[KStr s := VRef r]> m)
    ∧ field h3 v "invoice_number" = Some (VStr s).
Proof.
  intros Hllm Hc Hls Hr Hd Hs.
  destruct (store_invoice_stored c h2 r ls d m (VStr s) (KStr s))
    as (lr & shown & h3 & Hrun & _ & _ & Hdesc & Hls3 & _);
    [done.. | by apply truthy_str | done | ].
  exists (VRef lr), h3. split; [ | split].
  - unfold StructuredData.extract_invoice_data, mbind, M_bind, bind.
    by rewrite with_display_build, Hllm.
  - by apply (invoice_mapping_held c h3 ls).
  - unfold field. by rewrite Hdesc.
Qed.

(** X14.  The extractor does not check what the capability answers; the
    store does, for the number only: when the answer is a dict without
    an invoice number the pipeline ends in the ValueError of the store,
    and no object the capability left has changed. *)
Theorem extract_then_store_unnumbered (prompt_llm_for_json : capability)
    (c : ActionContext) (document_text : string) (h h2 : heap)
    (r : loc) (d : pydict) :
  prompt_llm_for_json c (with_display Reliability.invoice_schema h).1
    (Reliability.extraction_prompt document_text)
    (with_display Reliability.invoice_schema h).2 = (Ret (VRef r), h2) →
  h2 !! r = Some (ODict d) →
  d !! KStr "invoice_number" = None →
  ∃ h3,
    (Reliability.extract_invoice_data prompt_llm_for_json c document_text
       ≫= store_invoice c) h = (Raise missing_number, h3)
    ∧ h2 ⊆ h3.
Proof.
  intros Hllm Hr Hd. eexists. split; [ | apply alloc_extends].
  unfold Reliability.extract_invoice_data, mbind, M_bind, bind.
  rewrite with_display_build, Hllm.
  apply (store_invoice_refuses c h2 r d Hr). rewrite Hd. constructor.
Qed.

(** ** The schema the capability receives *)

Lemma reads_as_list (h : heap) (items : list lit) (v : pyval) :
  reads_as h (LList items) v
  ↔ ∃ l vs, v = VRef l ∧ h !! l = Some (OList vs)
            ∧ Forall2 (reads_as h) items vs.
Proof.
  cbn. split; intros (l & vs & -> & Hl & Hall); exists l, vs;
    (split; [done | split; [done | ]]); clear Hl.
  - revert vs Hall. induction items as [ | e es IH]; intros [ | w ws] Hall;
      try done; try (by constructor).
    destruct Hall as [He Hes]. constructor; [done | by apply IH].
  - induction Hall as [ | e w es ws He _ IH]; [done | by split].
Qed.

Lemma reads_as_dict (h : heap) (entries : list (string * lit)) (v : pyval) :
  reads_as h (LDict entries) v
  ↔ ∃ l d, v = VRef l ∧ h !! l = Some (ODict d)
           ∧ dom d = list_to_set ((λ kv, KStr kv.1) <$> entries)
           ∧ Forall (λ kv, ∃ w, d !! KStr kv.1 = Some w ∧ reads_as h kv.2 w)
               entries.
Proof.
  cbn. split; intros (l & d & -> & Hl & Hdom & Hall); exists l, d;
    (split; [done | split; [done | split; [done | ]]]); clear Hdom Hl.
  - induction entries as [ | [k e] es IH]; [constructor | ].
    destruct Hall as [He Hes]. constructor; [done | by apply IH].
  - induction Hall as [ | [k e] es He _ IH]; [done | by split].
Qed.

Lemma reads_as_weaken (e : lit) (h h' : heap) (v : pyval) :
  h ⊆ h' → reads_as h e v → reads_as h' e v.
Proof.
  intros Hsub. revert v.
  induction e as [s | z | items IH | entries IH] using lit_nested_ind; intros v.
  - done.
  - done.
  - rewrite !reads_as_list. intros (l & vs & -> & Hl & Hall).
    exists l, vs. split; [done | split; [by eapply lookup_weaken | ]].
    clear Hl. revert IH. induction Hall as [ | e w es ws He _ IHall]; intros IH;
      [constructor | ].
    apply Forall_cons in IH as [IHe IHes]. constructor; [by apply IHe | by apply IHall].
  - rewrite !reads_as_dict. intros (l & d & -> & Hl & Hdom & Hall).
    exists l, d. split; [done | split; [by eapply lookup_weaken | split; [done | ]]].
    clear Hl Hdom. revert IH. induction Hall as [ | [k e] es (w & Hw & He) _ IHall]; intros IH;
      [constructor | ].
    apply Forall_cons in IH as [IHe IHes]. constructor; [ | by apply IHall].
    exists w. split; [done | by apply IHe].
Qed.

Lemma build_extends (e : lit) (h : heap) (v : pyval) (h' : heap) :
  build e h = (Ret v, h') → h ⊆ h'.
Proof.
  intros Hrun. destruct (build_total e h) as (v0 & h0 & Hrun0 & Hsub).
  rewrite Hrun in Hrun0. by injection Hrun0 as _ <-.
Qed.

Lemma distinct_keys_list (items : list lit) :
  distinct_keys (LList items) = true → Forall (λ e, distinct_keys e = true) items.
Proof.
  cbn. induction items as [ | e es IH]; [constructor | ].
  intros [He Hes]%andb_true_iff. constructor; [done | by apply IH].
Qed.

Lemma distinct_keys_dict (entries : list (string * lit)) :
  distinct_keys (LDict entries) = true →
  NoDup entries.*1 ∧ Forall (λ kv, distinct_keys kv.2 = true) entries.
Proof.
  cbn. intros [Hnd Hall]%andb_true_iff. split; [by apply bool_decide_eq_true in Hnd | ].
  clear Hnd. induction entries as [ | [k e] es IH]; [constructor | ].
  apply andb_true_iff in Hall as [He Hes]. constructor; [done | by apply IH].
Qed.

Lemma build_items_reads (items : list lit) :
  Forall (λ e, ∀ h v h', build e h = (Ret v, h') → reads_as h' e v) items →
  ∀ h vs h1,
    build_items items h = (Ret vs, h1) →
    h ⊆ h1 ∧ Forall2 (reads_as h1) items vs.
Proof.
  induction 1 as [ | e es He _ IH]; intros h vs h1 Hrun.
  - injection Hrun as <- <-. split; [done | constructor].
  - change (bind (build e)
              (λ v, bind (build_items es) (λ ws, ret (v :: ws))) h
            = (Ret vs, h1)) in Hrun.
    unfold bind at 1 in Hrun.
    destruct (build e h) as [[v | ex | ] ha] eqn:Hb; try discriminate.
    unfold bind in Hrun.
    destruct (build_items es ha) as [[ws | ex | ] hb] eqn:Hes; try discriminate.
    injection Hrun as <- <-.
    destruct (IH ha ws hb Hes) as [Hsub Hall].
    split.
    + etrans; [by eapply build_extends | done].
    + constructor; [ | done].
      eapply reads_as_weaken; [exact Hsub | by eapply He].
Qed.

Lemma build_entries_reads (entries : list (string * lit)) :
  Forall (λ kv, ∀ h v h', build kv.2 h = (Ret v, h') → reads_as h' kv.2 v)
    entries →
  NoDup entries.*1 →
  ∀ acc h d h1,
    build_entries entries acc h = (Ret d, h1) →
    (∀ k, k ∈ entries.*1 → acc !! KStr k = None) →
    h ⊆ h1
    ∧ acc ⊆ d
    ∧ dom d = dom acc ∪ list_to_set ((λ kv, KStr kv.1) <$> entries)
    ∧ Forall (λ kv, ∃ w, d !! KStr kv.1 = Some w ∧ reads_as h1 kv.2 w) entries.
Proof.
  induction 1 as [ | [k e] es He _ IH]; intros Hnd acc h d h1 Hrun Hacc.
  - injection Hrun as <- <-. repeat split; try done.
    cbn. by rewrite (right_id_L ∅ (∪)).
  - change (bind (build e) (λ v, build_entries es (<[KStr k := v]> acc)) h
            = (Ret d, h1)) in Hrun.
    unfold bind in Hrun.
    destruct (build e h) as [[v | ex | ] ha] eqn:Hb; try discriminate.
    cbn in Hnd. apply NoDup_cons in Hnd as [Hk Hnd].
    assert (Hk0 : acc !! KStr k = None) by (apply Hacc; cbn; apply elem_of_cons; by left).
    destruct (IH Hnd (<[KStr k := v]> acc) ha d h1 Hrun)
      as (Hsub & Hacc' & Hdom & Hall).
    { intros k' Hk'. rewrite lookup_insert_ne.
      - apply Hacc. cbn. apply elem_of_cons. by right.
      - intros [= ->]. done. }
    split; [ | split; [ | split]].
    + etrans; [by eapply build_extends | done].
    + etrans; [by apply insert_subseteq | done].
    + rewrite Hdom, dom_insert_L. cbn. by rewrite (assoc_L (∪)), (comm_L (∪) (dom acc)).
    + constructor; [ | done]. exists v. split.
      * eapply lookup_weaken; [apply lookup_insert_eq | done].
      * eapply reads_as_weaken; [exact Hsub | by eapply He].
Qed.

(** Evaluating a display whose dicts name no key twice gives a value
    that reads as the display, in an object that is new. *)
Lemma build_reads_as (e : lit) :
  distinct_keys e = true →
  ∀ h v h', build e h = (Ret v, h') → reads_as h' e v ∧ new_in h v.
Proof.
  induction e as [s | z | items IH | entries IH] using lit_nested_ind;
    intros Hdk h v h' Hrun.
  - injection Hrun as <- <-. split; [done | by intros l].
  - injection Hrun as <- <-. split; [done | by intros l].
  - apply distinct_keys_list in Hdk.
    assert (Forall (λ e, ∀ h v h', build e h = (Ret v, h') → reads_as h' e v)
              items) as Hall.
    { clear -IH Hdk. induction IH as [ | e es He _ IHes]; [constructor | ].
      apply Forall_cons in Hdk as [Hd Hds].
      constructor; [ | by apply IHes]. intros h v h' Hrun. by eapply He. }
    change (bind (build_items items) (λ vs, alloc (OList vs)) h = (Ret v, h'))
      in Hrun.
    unfold bind in Hrun.
    destruct (build_items items h) as [[vs | ex | ] h1] eqn:Hitems;
      try discriminate.
    injection Hrun as <- <-.
    destruct (build_items_reads items Hall h vs h1 Hitems) as [Hsub Hreads].
    split.
    + apply reads_as_list. exists (fresh (dom h1)), vs.
      split; [done | split; [apply lookup_insert_eq | ]].
      eapply Forall2_impl; [exact Hreads | ].
      intros e w. apply reads_as_weaken, alloc_extends.
    + intros l [= <-]. destruct (h !! fresh (dom h1)) as [o | ] eqn:Hl; [ | done].
      apply (lookup_weaken _ _ _ _ Hl) in Hsub.
      by rewrite fresh_unused in Hsub.
  - apply distinct_keys_dict in Hdk as [Hnd Hdk].
    assert (Forall (λ kv : string * lit,
              ∀ h v h', build kv.2 h = (Ret v, h') → reads_as h' kv.2 v)
              entries) as Hall.
    { clear -IH Hdk. induction IH as [ | kv es He _ IHes]; [constructor | ].
      apply Forall_cons in Hdk as [Hd Hds].
      constructor; [ | by apply IHes]. intros h v h' Hrun. by eapply He. }
    change (bind (build_entries entries ∅) (λ d, alloc (ODict d)) h = (Ret v, h'))
      in Hrun.
    unfold bind in Hrun.
    destruct (build_entries entries ∅ h) as [[d | ex | ] h1] eqn:Hentries;
      try discriminate.
    injection Hrun as <- <-.
    destruct (build_entries_reads entries Hall Hnd ∅ h d h1 Hentries)
      as (Hsub & _ & Hdom & Hreads).
    { intros k _. apply lookup_empty. }
    split.
    + apply reads_as_dict. exists (fresh (dom h1)), d.
      split; [done | split; [apply lookup_insert_eq | split]].
      * by rewrite Hdom, dom_empty_L, (left_id_L ∅ (∪)).
      * eapply Forall_impl; [exact Hreads | ].
        intros kv (w & Hw & He). exists w. split; [done | ].
        eapply reads_as_weaken; [apply alloc_extends | done].
    + intros l [= <-]. destruct (h !! fresh (dom h1)) as [o | ] eqn:Hl; [ | done].
      apply (lookup_weaken _ _ _ _ Hl) in Hsub.
      by rewrite fresh_unused in Hsub.
Qed.

(** X15.  At every call, in whatever heap, either extractor hands the
    capability its own context, the prompt made of the document text,
    and a schema that reads exactly as the schema written in the source,
    in a dict built for this call; nothing that existed before is
    touched. *)
Theorem extract_hands_over_schema (prompt_llm_for_json : capability)
    (c : ActionContext) (document_text : string) (h : heap) :
  (∃ schema h1,
     StructuredData.extract_invoice_data prompt_llm_for_json c document_text h
     = prompt_llm_for_json c schema
         (StructuredData.extraction_prompt document_text) h1
     ∧ h ⊆ h1
     ∧ reads_as h1 StructuredData.invoice_schema schema
     ∧ new_in h schema)
  ∧ (∃ schema h1,
       Reliability.extract_invoice_data prompt_llm_for_json c document_text h
       = prompt_llm_for_json c schema
           (Reliability.extraction_prompt document_text) h1
       ∧ h ⊆ h1
       ∧ reads_as h1 Reliability.invoice_schema schema
       ∧ new_in h schema).
Proof.
  split.
  - destruct (build_then _ StructuredData.invoice_schema
                (λ schema, prompt_llm_for_json c schema
                   (StructuredData.extraction_prompt document_text)) h)
      as (schema & h1 & Hrun & Hsub & Heq).
    exists schema, h1. split; [exact Heq | split; [done | ]].
    by apply (build_reads_as StructuredData.invoice_schema).
  - destruct (build_then _ Reliability.invoice_schema
                (λ schema, prompt_llm_for_json c schema
                   (Reliability.extraction_prompt document_text)) h)
      as (schema & h1 & Hrun & Hsub & Heq).
    exists schema, h1. split; [exact Heq | split; [done | ]].
    by apply (build_reads_as Reliability.invoice_schema).
Qed.

(** * The further theorems at the sample data *)


Lemma store_invoice_success_needs_number_witness :
  ∃ r d n,
    VRef 3%positive = VRef r ∧ h_inv_100 !! r = Some (ODict d)
    ∧ d !! KStr "invoice_number" = Some n
    ∧ truthy_scalar n
    ∧ field (store_invoice stored_ctx (VRef 3%positive) h_inv_100).2
        (VRef 5%positive) "status" = Some (VStr "success")
    ∧ field (store_invoice stored_ctx (VRef 3%positive) h_inv_100).2
        (VRef 5%positive) "invoice_number" = Some n.
Proof.
  apply (store_invoice_success_needs_number stored_ctx (VRef 3%positive)
           h_inv_100 (VRef 5%positive)).
  vm_compute. reflexivity.
Defined.


Lemma store_invoice_never_removes_witness :
  ∃ m', invoice_mapping stored_ctx
          (store_invoice stored_ctx (VInt 3) h_inv_100).2 = Some m'
        ∧ dom (∅ : pydict) ⊆ dom m'
        ∧ (size (∅ : pydict) ≤ size m' ≤ S (size (∅ : pydict)))%nat.
Proof.
  apply (store_invoice_never_removes stored_ctx (VInt 3) h_inv_100 store_loc ∅).
  - reflexivity.
  - vm_compute. reflexivity.
Defined.

Lemma store_invoice_commutes_witness :
  ∃ m',
    invoice_mapping stored_ctx
      (store_invoice stored_ctx (VRef 5%positive)
         (store_invoice stored_ctx (VRef 3%positive) h_two_numbers).2).2 = Some m'
    ∧ invoice_mapping stored_ctx
        (store_invoice stored_ctx (VRef 3%positive)
           (store_invoice stored_ctx (VRef 5%positive) h_two_numbers).2).2 = Some m'
    ∧ m' !! KStr "INV-100" = Some (VRef 3%positive)
    ∧ m' !! KStr "INV-1" = Some (VRef 5%positive).
Proof.
  apply (store_invoice_commutes stored_ctx h_two_numbers 3%positive 5%positive
           store_loc (record_at h_two_numbers 3%positive)
           (record_at h_two_numbers 5%positive) ∅
           (VStr "INV-100") (VStr "INV-1")).
  - reflexivity.
  - vm_compute. reflexivity.
  - vm_compute. reflexivity.
  - vm_compute. reflexivity.
  - vm_compute. reflexivity.
  - vm_compute. reflexivity.
  - by constructor.
  - by constructor.
  - reflexivity.
  - reflexivity.
  - discriminate.
  - discriminate.
  - discriminate.
Defined.

Lemma store_invoice_true_is_one_witness :
  ∃ v1 h1 v2 h2 m1 m2,
    store_invoice stored_ctx (VRef 2%positive) h_true_one = (Ret v1, h1)
    ∧ store_invoice stored_ctx (VRef 3%positive) h1 = (Ret v2, h2)
    ∧ invoice_mapping stored_ctx h1 = Some m1
    ∧ invoice_mapping stored_ctx h2 = Some m2
    ∧ m1 !! KInt 1 = Some (VRef 2%positive)
    ∧ m2 !! KInt 1 = Some (VRef 3%positive)
    ∧ size m2 = size m1
    ∧ field h2 v1 "invoice_number" = Some (VBool true)
    ∧ field h2 v2 "invoice_number" = Some (VInt 1).
Proof.
  apply (store_invoice_true_is_one stored_ctx h_true_one 2%positive 3%positive
           store_loc (record_at h_true_one 2%positive)
           (record_at h_true_one 3%positive) ∅).
  - reflexivity.
  - vm_compute. reflexivity.
  - vm_compute. reflexivity.
  - vm_compute. reflexivity.
  - vm_compute. reflexivity.
  - vm_compute. reflexivity.
  - discriminate.
  - discriminate.
Defined.

Lemma store_invoice_not_a_dict_witness :
  (∃ msg h', store_invoice stored_ctx (VStr "INV-100") empty_store
             = (Raise (AttributeError msg), h') ∧ empty_store ⊆ h')
  ∧ (∃ msg h', store_invoice stored_ctx (VRef 2%positive) h_list_number
               = (Raise (AttributeError msg), h') ∧ h_list_number ⊆ h').
Proof.
  split.
  - apply (store_invoice_not_a_dict stored_ctx (VStr "INV-100") empty_store).
    left. by eexists.
  - apply (store_invoice_not_a_dict stored_ctx (VRef 2%positive) h_list_number).
    right. exists 2%positive, [VStr "INV-7"]. split; [done | ].
    vm_compute. reflexivity.
Defined.

Lemma store_invoice_storage_not_mapping_witness :
  ∃ msg h',
    store_invoice none_ctx (VRef 3%positive) h_inv_100
    = (Raise (TypeError msg), h') ∧ h_inv_100 ⊆ h'.
Proof.
  apply (store_invoice_storage_not_mapping none_ctx h_inv_100 3%positive
           (record_at h_inv_100 3%positive) (VStr "INV-100") VNone).
  - vm_compute. reflexivity.
  - vm_compute. reflexivity.
  - by constructor.
  - reflexivity.
  - left. by eexists.
Defined.

Lemma store_invoice_keeps_reference_witness :
  ∃ v0 h' h'' m',
    store_invoice stored_ctx (VRef 3%positive) h_inv_100 = (Ret v0, h')
    ∧ setitem (VRef 3%positive) (VStr "date") (VStr "2024-03-03") h'
      = (Ret tt, h'')
    ∧ invoice_mapping stored_ctx h'' = Some m'
    ∧ field h'' (default VNone (m' !! KStr "INV-100")) "date"
      = Some (VStr "2024-03-03").
Proof.
  apply (store_invoice_keeps_reference stored_ctx h_inv_100 3%positive store_loc
           (record_at h_inv_100 3%positive) ∅ "INV-100").
  - reflexivity.
  - vm_compute. reflexivity.
  - vm_compute. reflexivity.
  - vm_compute. reflexivity.
  - discriminate.
  - discriminate.
Defined.

Lemma store_invoice_shared_mapping_witness :
  ∃ v h' m',
    store_invoice stored_ctx (VRef 3%positive) h_inv_100 = (Ret v, h')
    ∧ invoice_mapping
        {| properties := <["memory" := VNone]> (properties stored_ctx) |} h'
      = Some m'
    ∧ m' !! KStr "INV-100" = Some (VRef 3%positive).
Proof.
  apply (store_invoice_shared_mapping stored_ctx
           {| properties := <["memory" := VNone]> (properties stored_ctx) |}
           h_inv_100 3%positive store_loc
           (record_at h_inv_100 3%positive) ∅ "INV-100").
  - reflexivity.
  - vm_compute. reflexivity.
  - vm_compute. reflexivity.
  - vm_compute. reflexivity.
  - vm_compute. reflexivity.
  - discriminate.
Defined.

Lemma store_all_upserts_witness :
  invoice_mapping stored_ctx
    (store_all stored_ctx
       ((λ e : loc * string, VRef e.1)
          <$> [(3%positive, "INV-1"); (5%positive, "INV-1"); (3%positive, "INV-1")])
       h_inv_1)
  = Some (upsert_all ∅
            [(3%positive, "INV-1"); (5%positive, "INV-1"); (3%positive, "INV-1")]).
Proof.
  apply (store_all_upserts stored_ctx _ h_inv_1 store_loc ∅).
  - reflexivity.
  - vm_compute. reflexivity.
  - repeat constructor; try discriminate; cbn.
    + exists (record_at h_inv_1 3%positive). split; vm_compute; reflexivity.
    + exists (record_at h_inv_1 5%positive). split; vm_compute; reflexivity.
    + exists (record_at h_inv_1 3%positive). split; vm_compute; reflexivity.
Defined.

Lemma extraction_prompt_keeps_text_witness :
  StructuredData.extraction_prompt "Invoice #1" ≠
    StructuredData.extraction_prompt "Invoice #2"
  ∧ Reliability.extraction_prompt "Invoice #1" ≠
      Reliability.extraction_prompt "Invoice #2".
Proof.
  apply (extraction_prompt_keeps_text "Invoice #1" "Invoice #2"). discriminate.
Defined.

Lemma extract_then_store_witness :
  ∃ v h3,
    (StructuredData.extract_invoice_data (stub_returning inv_a1) stored_ctx
       "Invoice A1" ≫= store_invoice stored_ctx) empty_store = (Ret v, h3)
    ∧ invoice_mapping stored_ctx h3
      = Some (<[KStr "A1" := VRef (loc_of a1_answer.1)]> ∅)
    ∧ field h3 v "invoice_number" = Some (VStr "A1").
Proof.
  apply (extract_then_store (stub_returning inv_a1) stored_ctx "Invoice A1"
           empty_store a1_answer.2 (loc_of a1_answer.1) store_loc
           (record_at a1_answer.2 (loc_of a1_answer.1)) ∅ "A1").
  - vm_compute. reflexivity.
  - reflexivity.
  - vm_compute. reflexivity.
  - vm_compute. reflexivity.
  - vm_compute. reflexivity.
  - discriminate.
Defined.

Lemma extract_then_store_unnumbered_witness :
  ∃ h3,
    (Reliability.extract_invoice_data (stub_returning inv_unnumbered) stored_ctx
       "no number here" ≫= store_invoice stored_ctx) empty_store
    = (Raise missing_number, h3)
    ∧ unnumbered_answer.2 ⊆ h3.
Proof.
  apply (extract_then_store_unnumbered (stub_returning inv_unnumbered) stored_ctx
           "no number here" empty_store unnumbered_answer.2
           (loc_of unnumbered_answer.1)
           (record_at unnumbered_answer.2 (loc_of unnumbered_answer.1))).
  - vm_compute. reflexivity.
  - vm_compute. reflexivity.
  - vm_compute. reflexivity.
Defined.
